(** * The DN codec of python-ldap's [Modules/functions.c]

    [l_ldap_str2dn] and [l_ldap_dn2str] are the two entry points that turn
    the text of a distinguished name into nested Python lists of
    [(attributeType, attributeValue, flags)] tuples and back.  Both are thin
    marshalling layers around libldap's [ldap_bv2dn] and [ldap_dn2bv].

    The embedding keeps what the C code decides by itself: argument
    parsing, the shape checks, the order in which iterators are advanced,
    the integer conversions of the flag words, the [malloc] calls and the
    calls that release them, the stores into the blocks obtained, the
    interpreter's error indicator, and the exits.  libldap is an interface
    ([Libldap]) whose functions are arguments of every definition.

    [l_ldap_dn2str] obtains each of its arrays with a [malloc] of one
    pointer, stores one entry per element into it, stores no NULL after
    the last, and leaves for [failed:] with a [tmp] it has not assigned.
    What such a call does depends on what the memory it did not write
    holds; the embedding takes that from its surroundings ([Memory]) and
    ends a call with [Undefined] where C leaves its behaviour undefined.

    Outside the embedding: reference counts, allocation failure, and text
    encodings (a [str] is identified with its UTF-8 octets). *)

From Stdlib Require Import ZArith List String Ascii Bool Lia.
Import ListNotations.

#[local] Set Warnings "-register-all".

Local Open Scope string_scope.
Local Open Scope list_scope.
Local Open Scope Z_scope.

(** ** C integers (LP64) *)

Module CInt.

Definition INT_MIN : Z := - 2 ^ 31.
Definition INT_MAX : Z := 2 ^ 31 - 1.
Definition LONG_MIN : Z := - 2 ^ 63.
Definition LONG_MAX : Z := 2 ^ 63 - 1.

Definition fits_int (z : Z) : bool := (INT_MIN <=? z) && (z <=? INT_MAX).
Definition fits_long (z : Z) : bool := (LONG_MIN <=? z) && (z <=? LONG_MAX).

(** Conversion to [unsigned]: reduction modulo 2^32. *)
Definition to_uint32 (z : Z) : Z := z mod 2 ^ 32.

(** Conversion to [int]: the value with the same low 32 bits. *)
Definition to_int32 (z : Z) : Z :=
  let u := z mod 2 ^ 32 in if u <? 2 ^ 31 then u else u - 2 ^ 32.

(** [~x] on an [unsigned]: all 32 bits flipped. *)
Definition u32_not (x : Z) : Z := Z.lxor (to_uint32 x) (Z.ones 32).

(** Conversion to [unsigned long] ([ber_len_t]): reduction modulo 2^64. *)
Definition to_ulong (z : Z) : Z := z mod 2 ^ 64.

End CInt.
Import CInt.

(** ** C memory *)

(** The blocks a call comes to hold: the arrays and records
    [l_ldap_dn2str] mallocs, and the DN [ldap_bv2dn] allocates for
    [l_ldap_str2dn]. *)
Inductive alloc : Type :=
| DnArray
| RdnArray (i : nat)
| AvaRecord (i j : nat)
| ParsedDn.

Definition alloc_eqb (a b : alloc) : bool :=
  match a, b with
  | DnArray, DnArray => true
  | RdnArray i, RdnArray i' => Nat.eqb i i'
  | AvaRecord i j, AvaRecord i' j' => Nat.eqb i i' && Nat.eqb j j'
  | ParsedDn, ParsedDn => true
  | _, _ => false
  end.

(** The steps at which a call leaves what C defines: [Py_XDECREF(tmp)] on
    a [tmp] that was never assigned; a store into slot [index] of a block
    that has no such slot; and handing an array to a function that takes
    NULL-terminated ones when the slot behind its [entries] entries, which
    the call never wrote, is past the block or does not hold NULL. *)
Inductive Hazard : Type :=
| UnassignedTmp
| StorePastBlock (a : alloc) (index : nat)
| Unterminated (a : alloc) (entries : nat).

(** What a call finds in memory it has not written.  [malloc(sizeof(LDAPDN))]
    and [malloc(sizeof(LDAPRDN))] ask for one pointer; [slack a] is how many
    more pointers the allocator left usable behind block [a].
    [reads_null a index] tells whether slot [index] of block [a], never
    written by the call, holds NULL, and [tmp_null] whether the local [tmp],
    never assigned, does. *)
Record Memory : Type :=
  { slack : alloc -> nat;
    reads_null : alloc -> nat -> bool;
    tmp_null : bool }.

(** The memory C promises: a block has the room that was asked for, and
    nothing is known of what was not written, which does not read as
    NULL. *)
Definition exact_memory : Memory :=
  {| slack := fun _ => 0%nat; reads_null := fun _ _ => false; tmp_null := false |}.

(** A memory that forgives: every block is followed by room for two more
    pointers (a request of 8 bytes served with 24 usable ones), and
    whatever the call reads before writing it holds NULL. *)
Definition lenient_memory : Memory :=
  {| slack := fun _ => 2%nat; reads_null := fun _ _ => true; tmp_null := true |}.

(** ** Python values *)

(** The objects the two functions can tell apart.  [PyIterator pending] is a
    one-shot iterator (a generator, the result of [iter(...)]) that will
    still yield [pending]; it is the only object whose state a call can
    change. *)
Inductive PyObject : Type :=
| PyNone
| PyLong (z : Z)
| PyUnicode (s : string)
| PyBytes (s : string)
| PyList (items : list PyObject)
| PyTuple (items : list PyObject)
| PyIterator (pending : list PyObject).

(** How a call ends when it does not return a value.  [ArgTypeError] and
    [ArgOverflowError] are raised by [PyArg_ParseTuple] with a message of its
    own; [PyExc_TypeError msg] is [PyErr_SetString(PyExc_TypeError, msg)];
    [PyExc_OverflowError] is what [PyLong_AsLong] sets for an integer
    beyond a [long]; [PyExc_SystemError] is what the interpreter raises
    when a function returns a result with an exception set.
    [Undefined h] is no exception: at [h] the call has left what C and
    the interface of libldap define, and the source does not determine
    how, or whether, it ends. *)
Inductive PyErr : Type :=
| ArgTypeError
| ArgOverflowError
| PyExc_TypeError (msg : string)
| PyExc_OverflowError
| PyExc_SystemError
| LDAPError (res : Z)
| Undefined (h : Hazard).

(** Modelled from the spec: [LDAPerr] (constants.c, not among the sources)
    reports "a directory-library error code/message pair as a typed
    failure"; the failure is the exception and the code it carries. *)
Definition LDAPerr (res : Z) : PyErr := LDAPError res.

Definition PyList_Check (o : PyObject) : bool :=
  match o with PyList _ => true | _ => false end.

Definition PyTuple_Check (o : PyObject) : bool :=
  match o with PyTuple _ => true | _ => false end.

Definition PyUnicode_Check (o : PyObject) : bool :=
  match o with PyUnicode _ => true | _ => false end.

Definition PyLong_Check (o : PyObject) : bool :=
  match o with PyLong _ => true | _ => false end.

Definition PyList_AsTuple (o : PyObject) : PyObject :=
  match o with PyList items => PyTuple items | _ => o end.

Definition PyTuple_Size (o : PyObject) : Z :=
  match o with PyTuple items => Z.of_nat (List.length items) | _ => -1 end.

Definition PyTuple_GetItem (o : PyObject) (i : nat) : PyObject :=
  match o with PyTuple items => nth i items PyNone | _ => PyNone end.

(** [PyObject_GetIter]: the elements a fresh iteration yields, [None] for an
    object that is not iterable.  A [str] yields its characters and a
    [bytes] its octets as integers. *)
Definition PyObject_GetIter (o : PyObject) : option (list PyObject) :=
  match o with
  | PyList items | PyTuple items | PyIterator items => Some items
  | PyUnicode s =>
      Some (map (fun c => PyUnicode (String c EmptyString)) (list_ascii_of_string s))
  | PyBytes s =>
      Some (map (fun c => PyLong (Z.of_N (N_of_ascii c))) (list_ascii_of_string s))
  | PyNone | PyLong _ => None
  end.

(** [PyUnicode_AsEncodedString(o, "utf-8", "strict")]. *)
Definition PyUnicode_AsEncodedString (o : PyObject) : PyObject :=
  match o with PyUnicode s => PyBytes s | _ => PyNone end.

Definition PyBytes_AsString (o : PyObject) : option string :=
  match o with PyBytes s => Some s | _ => None end.

Definition PyBytes_Size (o : PyObject) : Z :=
  match o with PyBytes s => Z.of_nat (String.length s) | _ => -1 end.

(** [PyLong_AsLong]: the value returned and the exception set, if one
    is: -1 with [OverflowError] for an integer beyond a [long], -1 with a
    [TypeError] for what is no integer (its one caller has checked
    [PyLong_Check]). *)
Definition PyLong_AsLong (o : PyObject) : Z * option PyErr :=
  match o with
  | PyLong z => if fits_long z then (z, None) else (-1, Some PyExc_OverflowError)
  | _ => (-1, Some (PyExc_TypeError "an integer is required"))
  end.

(** [PyUnicode_FromString] reads a C string: the octets before the first
    NUL. *)
Fixpoint PyUnicode_FromString (s : string) : string :=
  match s with
  | EmptyString => EmptyString
  | String c rest =>
      if Ascii.eqb c zero then EmptyString else String c (PyUnicode_FromString rest)
  end.

(** ** libldap's data *)

Record berval : Type := { bv_val : option string; bv_len : Z }.

Record LDAPAVA : Type :=
  { la_attr : berval; la_value : berval; la_flags : Z }.

(** [LDAPRDN] and [LDAPDN] are NULL-terminated arrays of pointers. *)
Definition LDAPRDN : Type := list LDAPAVA.
Definition LDAPDN : Type := list LDAPRDN.

(** What the module takes from the C libraries it is linked with: three
    constants of [ldap.h] and the two conversion functions of libldap, and
    the memory the allocator and the stack hand out.  [ldap_bv2dn str flags]
    is the return code and the DN stored through the out-parameter;
    [ldap_dn2bv dn flags] the return code and the buffer stored in
    [str.bv_val] for a NULL-terminated array of NULL-terminated arrays;
    [flags] is the [int] the wrapper passes. *)
Record Libldap : Type :=
  { LDAP_SUCCESS : Z;
    LDAP_AVA_FREE_ATTR : Z;
    LDAP_AVA_FREE_VALUE : Z;
    ldap_bv2dn : berval -> Z -> Z * LDAPDN;
    ldap_dn2bv : LDAPDN -> Z -> Z * string;
    memory : Memory }.

(** Modelled from the spec: [LDAPberval_to_unicode_object] (berval.c, not
    among the sources) makes the "attributeType: string" and
    "attributeValue: string" of a returned triple from a buffer whose
    "length is explicit, not NUL-terminated"; a null buffer holds no
    string. *)
Definition LDAPberval_to_unicode_object (bv : berval) : PyObject :=
  match bv_val bv with
  | Some s => PyUnicode (substring 0 (Z.to_nat (bv_len bv)) s)
  | None => PyNone
  end.

(** ** Calls: working storage, iterator position, exits *)

(** [live]: blocks obtained and not released; [released]: every release, in
    order; [taken]: how many elements [PyIter_Next] has drawn from the
    iterator over the caller's [dn_list]. *)
Record World : Type :=
  { live : list alloc; released : list alloc; taken : nat }.

Definition initial_world : World :=
  {| live := []; released := []; taken := 0 |}.

(** A call runs in a world and ends with a value or an exception. *)
Definition M (A : Type) : Type := World -> (A + PyErr) * World.

Definition ret {A : Type} (a : A) : M A := fun w => (inl a, w).

Definition raise {A : Type} (e : PyErr) : M A := fun w => (inr e, w).

Definition bind {A B : Type} (m : M A) (k : A -> M B) : M B :=
  fun w => match m w with
           | (inl a, w') => k a w'
           | (inr e, w') => (inr e, w')
           end.

Definition lift {A : Type} (r : A + PyErr) : M A := fun w => (r, w).

Declare Scope call_scope.
Delimit Scope call_scope with call.
Notation "x <- c1 ;; c2" := (bind c1 (fun x => c2))
  (at level 61, c1 at next level, right associativity) : call_scope.
Notation "' pat <- c1 ;; c2" := (bind c1 (fun x => match x with pat => c2 end))
  (at level 61, pat pattern, c1 at next level, right associativity) : call_scope.
Notation "c1 ;; c2" := (bind c1 (fun _ => c2))
  (at level 61, right associativity) : call_scope.

(** The block [a] comes into the hands of the call: C's [malloc], or a
    function of the engine that allocates for its caller. *)
Definition malloc (a : alloc) : M unit :=
  fun w => (inl tt, {| live := live w ++ [a]; released := released w; taken := taken w |}).

Fixpoint remove_first (a : alloc) (l : list alloc) : list alloc :=
  match l with
  | [] => []
  | b :: rest => if alloc_eqb a b then rest else b :: remove_first a rest
  end.

Definition release (a : alloc) : M unit :=
  fun w => (inl tt, {| live := remove_first a (live w);
                       released := released w ++ [a];
                       taken := taken w |}).

(** A successful [PyIter_Next] on the iterator over [dn_list]. *)
Definition advance : M unit :=
  fun w => (inl tt, {| live := live w; released := released w; taken := S (taken w) |}).

Definition run {A : Type} (m : M A) : (A + PyErr) * World := m initial_world.

(** What the caller's object is after the call: a one-shot iterator has
    lost the elements drawn from it. *)
Definition after_call (o : PyObject) (w : World) : PyObject :=
  match o with
  | PyIterator pending => PyIterator (skipn (taken w) pending)
  | _ => o
  end.

(** ** Argument parsing *)

(** Format unit [i]. *)
Definition arg_int (o : PyObject) : Z + PyErr :=
  match o with
  | PyLong z => if fits_int z then inl z else inr ArgOverflowError
  | _ => inr ArgTypeError
  end.

(** Format unit [z#]: [str], bytes-like or [None]; pointer and length. *)
Definition arg_buffer (o : PyObject) : berval + PyErr :=
  match o with
  | PyNone => inl {| bv_val := None; bv_len := 0 |}
  | PyUnicode s | PyBytes s =>
      inl {| bv_val := Some s; bv_len := Z.of_nat (String.length s) |}
  | _ => inr ArgTypeError
  end.

(** [PyArg_ParseTuple(args, "z#|i:str2dn", &str.bv_val, &str_len, &flags)]
    with [int flags = 0]: a missing optional argument leaves the
    initialiser. *)
Definition parse_args_str2dn (args : list PyObject) : (berval * Z) + PyErr :=
  match args with
  | [a] =>
      match arg_buffer a with
      | inl str => inl (str, 0)
      | inr e => inr e
      end
  | [a; f] =>
      match arg_buffer a with
      | inl str =>
          match arg_int f with
          | inl flags => inl (str, flags)
          | inr e => inr e
          end
      | inr e => inr e
      end
  | _ => inr ArgTypeError
  end.

(** [PyArg_ParseTuple(args, "Oi:dn2str", &dn_list, &flags)]. *)
Definition parse_args_dn2str (args : list PyObject) : (PyObject * Z) + PyErr :=
  match args with
  | [dn_list; f] =>
      match arg_int f with
      | inl flags => inl (dn_list, flags)
      | inr e => inr e
      end
  | _ => inr ArgTypeError
  end.

(** ** The two entry points *)

(** The list objects a call creates.  [PyList_Append] stores a reference,
    so a list appended to another one and filled afterwards is seen filled
    through it: a list is named by its position in the store and holds its
    items there. *)
Definition ListStore : Type := list (list PyObject).

Definition PyList_New (st : ListStore) : nat * ListStore :=
  (List.length st, st ++ [[]]).

Fixpoint PyList_Append (st : ListStore) (r : nat) (o : PyObject) : ListStore :=
  match st, r with
  | [], _ => []
  | l :: rest, O => (l ++ [o]) :: rest
  | l :: rest, S r' => l :: PyList_Append rest r' o
  end.

(** The object a list of references to lists of the store stands for. *)
Definition list_object (st : ListStore) (refs : list nat) : PyObject :=
  PyList (map (fun r => PyList (nth r st [])) refs).

(** What [PyIter_Next] draws, one element per call, from the result of
    [PyObject_GetIter]. *)
Definition yielded (iter : option (list PyObject)) : list PyObject :=
  match iter with Some items => items | None => [] end.

Definition type_error_message : string := "expected List[Tuple[str, str, int]]".

(** What the loops of [l_ldap_dn2str] carry beside the arrays they fill:
    the first step at which the call left defined behaviour, if it has,
    and the interpreter's error indicator. *)
Record Marshalling : Type :=
  { hazard : option Hazard; indicator : option PyErr }.

Definition untouched : Marshalling := {| hazard := None; indicator := None |}.

(** A function that sets an exception replaces the indicator. *)
Definition set_error (e : option PyErr) (st : Marshalling) : Marshalling :=
  match e with
  | Some _ => {| hazard := hazard st; indicator := e |}
  | None => st
  end.

(** [a[index] = entry] on a block obtained for one pointer: slot [index]
    is there when the allocator left that much room, and a store past it
    is the first hazard unless there was one before. *)
Definition store (mem : Memory) (a : alloc) (index : nat) (st : Marshalling) : Marshalling :=
  match hazard st with
  | Some _ => st
  | None =>
      if (index <=? slack mem a)%nat then st
      else {| hazard := Some (StorePastBlock a index); indicator := indicator st |}
  end.

(** Slot [n] of a block into which [n] entries were stored, where a
    function that walks the array looks for the NULL that ends it
    ([for (i = 0; dn[i]; i++)]): the call never wrote it, so the array is
    ended only where the slot is within the room of the block and happens
    to hold NULL. *)
Definition terminator (mem : Memory) (a : alloc) (n : nat) : option Hazard :=
  if (n <=? slack mem a)%nat && reads_null mem a n then None
  else Some (Unterminated a n).

(** The first array of [l_ldap_dn2str] that is not ended, in the order in
    which a function that takes them as NULL-terminated walks them: each
    RDN's array, from that of index [i] on, and then the array of RDNs. *)
Fixpoint walk (mem : Memory) (i : nat) (dn : LDAPDN) : option Hazard :=
  match dn with
  | [] => terminator mem DnArray i
  | rdn :: rest =>
      match terminator mem (RdnArray i) (List.length rdn) with
      | Some h => Some h
      | None => walk mem (S i) rest
      end
  end.

Section Wrappers.

Variable L : Libldap.

(** *** [l_ldap_str2dn] *)

(** [Py_BuildValue("(O&O&i)", ..., &ava->la_attr, ..., &ava->la_value,
    ava->la_flags & ~(LDAP_AVA_FREE_ATTR | LDAP_AVA_FREE_VALUE))]: the
    masked word is an [unsigned] and is read as an [int]. *)
Definition ava_tuple (ava : LDAPAVA) : PyObject :=
  PyTuple
    [ LDAPberval_to_unicode_object (la_attr ava);
      LDAPberval_to_unicode_object (la_value ava);
      PyLong (to_int32
                (Z.land (la_flags ava)
                   (u32_not (Z.lor (LDAP_AVA_FREE_ATTR L) (LDAP_AVA_FREE_VALUE L))))) ].

(** [for (j = 0; rdn[j]; j++)]: one tuple appended to [rdnlist] per AVA. *)
Fixpoint str2dn_avas (rdn : LDAPRDN) (rdnlist : nat) (st : ListStore) : ListStore :=
  match rdn with
  | [] => st
  | ava :: rest => str2dn_avas rest rdnlist (PyList_Append st rdnlist (ava_tuple ava))
  end.

(** [for (i = 0; dn[i]; i++)]: a new [rdnlist] is appended to [tmp] and
    then filled. *)
Fixpoint str2dn_rdns (dn : LDAPDN) (tmp : list nat) (st : ListStore)
  : list nat * ListStore :=
  match dn with
  | [] => (tmp, st)
  | rdn :: rest =>
      let (rdnlist, st1) := PyList_New st in
      let tmp1 := tmp ++ [rdnlist] in
      str2dn_rdns rest tmp1 (str2dn_avas rdn rdnlist st1)
  end.

(** [ldap_bv2dn] leaves a DN of its own making in [dn] when it succeeds;
    the [failed:] label, which the success path falls into, hands it to
    [ldap_dnfree]. *)
Definition l_ldap_str2dn (args : list PyObject) : M PyObject :=
  (' (str, flags) <- lift (parse_args_str2dn args) ;;
   let (res, dn) := ldap_bv2dn L str flags in
   if negb (res =? LDAP_SUCCESS L) then raise (LDAPerr res)
   else
     malloc ParsedDn ;;
     let (tmp, st) := str2dn_rdns dn [] [] in
     let result := list_object st tmp in
     release ParsedDn ;;
     ret result)%call.

(** *** [l_ldap_dn2str] *)

(** The record filled from one checked triple: the two encoded strings
    with [bv_len = (int)PyBytes_Size(...)] stored in a [ber_len_t], and
    [la_flags = (int)PyLong_AsLong(encoding)] stored in an [unsigned]. *)
Definition dn2str_ava (type value encoding : PyObject) : LDAPAVA :=
  let btype := PyUnicode_AsEncodedString type in
  let bvalue := PyUnicode_AsEncodedString value in
  {| la_attr := {| bv_val := PyBytes_AsString btype;
                   bv_len := to_ulong (to_int32 (PyBytes_Size btype)) |};
     la_value := {| bv_val := PyBytes_AsString bvalue;
                    bv_len := to_ulong (to_int32 (PyBytes_Size bvalue)) |};
     la_flags := to_uint32 (to_int32 (fst (PyLong_AsLong encoding))) |}.

(** The exit through [failed:] from a [goto failed] of the loops, the
    exception [e] just set: [result] is NULL, and [Py_XDECREF(tmp)] reads
    [tmp], which is declared without initialiser and assigned on no path
    to that [goto]. *)
Definition failed (st : Marshalling) (e : PyErr) : PyErr :=
  match hazard st with
  | Some h => Undefined h
  | None => if tmp_null (memory L) then e else Undefined UnassignedTmp
  end.

(** The inner [while (1)] over [iiter]: [items] is what the iterator still
    yields, [rdn] the entries stored so far.  [PyLong_AsLong(encoding)] is
    not checked for the exception it may set, and [rdn[j] = ava; j++]
    stores into the block of one pointer obtained for the RDN. *)
Fixpoint dn2str_avas (i : nat) (items : list PyObject) (j : nat) (rdn : LDAPRDN)
         (st : Marshalling) : M (LDAPRDN * Marshalling) :=
  match items with
  | [] => ret (rdn, st)
  | next :: rest =>
      let next := if PyList_Check next then PyList_AsTuple next else next in
      if negb (PyTuple_Check next) || (PyTuple_Size next <? 3)
      then raise (failed st (PyExc_TypeError type_error_message))
      else
        let type := PyTuple_GetItem next 0 in
        let value := PyTuple_GetItem next 1 in
        let encoding := PyTuple_GetItem next 2 in
        if negb (PyUnicode_Check type) || negb (PyUnicode_Check value)
           || negb (PyLong_Check encoding)
        then raise (failed st (PyExc_TypeError type_error_message))
        else
          (malloc (AvaRecord i j) ;;
           let st := set_error (snd (PyLong_AsLong encoding)) st in
           let st := store (memory L) (RdnArray i) j st in
           dn2str_avas i rest (S j) (rdn ++ [dn2str_ava type value encoding]) st)%call
  end.

(** The outer [while (1)] over [iter]: each element drawn is a list or a
    tuple, or the call fails; [dn[i] = rdn; i++] stores into the block of
    one pointer obtained for [dn].  Nothing is stored after the last entry
    of [dn] or of an [rdn]. *)
Fixpoint dn2str_rdns (items : list PyObject) (i : nat) (dn : LDAPDN)
         (st : Marshalling) : M (LDAPDN * Marshalling) :=
  match items with
  | [] => ret (dn, st)
  | inext :: rest =>
      (advance ;;
       let inext := if PyList_Check inext then PyList_AsTuple inext else inext in
       if negb (PyTuple_Check inext)
       then raise (failed st (PyExc_TypeError type_error_message))
       else
         let iiter := PyObject_GetIter inext in
         malloc (RdnArray i) ;;
         ' (rdn, st) <- dn2str_avas i (yielded iiter) 0%nat [] st ;;
         let st := store (memory L) DnArray i st in
         dn2str_rdns rest (S i) (dn ++ [rdn]) st)%call
  end.

(** [res = ldap_dn2bv(dn, &str, flags)] and what follows it.  The arrays
    are handed over as the loops left them, and [ldap_dn2bv] is defined
    on arrays that are ended.  A failure returns [LDAPerr(res)]; a success
    returns the string read from [str.bv_val], with whatever exception is
    still set. *)
Definition dn2str_bv (dn : LDAPDN) (flags : Z) (st : Marshalling) : PyObject + PyErr :=
  match hazard st with
  | Some h => inr (Undefined h)
  | None =>
      match walk (memory L) 0 dn with
      | Some h => inr (Undefined h)
      | None =>
          let (res, str) := ldap_dn2bv L dn flags in
          if negb (res =? LDAP_SUCCESS L) then inr (LDAPerr res)
          else
            match indicator st with
            | Some _ => inr PyExc_SystemError
            | None => inl (PyUnicode (PyUnicode_FromString str))
            end
      end
  end.

(** [dn] is allocated by the initialiser of its declaration, before the
    arguments are looked at.  Every [goto failed] and both [return]s
    leave without a call that releases anything: [failed:] holds
    [Py_XDECREF(tmp)] and the commented-out [ldap_dnfree(dn)]. *)
Definition l_ldap_dn2str (args : list PyObject) : M PyObject :=
  (malloc DnArray ;;
   ' (dn_list, flags) <- lift (parse_args_dn2str args) ;;
   match PyObject_GetIter dn_list with
   | None => raise (failed untouched (PyExc_TypeError type_error_message))
   | Some items =>
       ' (dn, st) <- dn2str_rdns items 0%nat [] untouched ;;
       lift (dn2str_bv dn flags st)
   end)%call.

End Wrappers.

(** ** Structured DNs and the shapes of a caller's value *)

(** A DN as the data model has it: RDNs, most specific first, of
    [(attributeType, attributeValue, flags)]. *)
Definition AVA : Type := (string * string * Z)%type.
Definition DN : Type := list (list AVA).

(** The nested lists of tuples [l_ldap_str2dn] returns for a DN. *)
Definition py_of_ava (a : AVA) : PyObject :=
  let '(type, value, flags) := a in PyTuple [PyUnicode type; PyUnicode value; PyLong flags].

Definition py_of_dn (d : DN) : PyObject :=
  PyList (map (fun rdn => PyList (map py_of_ava rdn)) d).

(** A list or tuple of at least three elements that begins with a string,
    a string and an integer. *)
Definition is_triple (o : PyObject) : bool :=
  match o with
  | PyList (PyUnicode _ :: PyUnicode _ :: PyLong _ :: _)
  | PyTuple (PyUnicode _ :: PyUnicode _ :: PyLong _ :: _) => true
  | _ => false
  end.

(** A list or tuple of such triples, possibly none. *)
Definition is_rdn (o : PyObject) : bool :=
  match o with
  | PyList items | PyTuple items => forallb is_triple items
  | _ => false
  end.

(** An iterable of such lists or tuples. *)
Definition dn_shape (o : PyObject) : bool :=
  match PyObject_GetIter o with
  | Some items => forallb is_rdn items
  | None => false
  end.

(** The looser shape: every container, outer or inner, is any iterable,
    and what the inner ones yield are tuples of length at least three that
    begin with a string, a string and an integer. *)
Definition is_loose_triple (o : PyObject) : bool :=
  match o with
  | PyTuple (PyUnicode _ :: PyUnicode _ :: PyLong _ :: _) => true
  | _ => false
  end.

Definition is_loose_rdn (o : PyObject) : bool :=
  match PyObject_GetIter o with
  | Some items => forallb is_loose_triple items
  | None => false
  end.

Definition loose_shape (o : PyObject) : bool :=
  match PyObject_GetIter o with
  | Some items => forallb is_loose_rdn items
  | None => false
  end.

(** The records a well-shaped value is turned into: the first three
    elements of each triple. *)
Definition ava_of_py (o : PyObject) : LDAPAVA :=
  let t := PyList_AsTuple o in
  dn2str_ava (PyTuple_GetItem t 0) (PyTuple_GetItem t 1) (PyTuple_GetItem t 2).

Definition rdn_of_py (o : PyObject) : LDAPRDN :=
  map ava_of_py (yielded (PyObject_GetIter o)).

Definition dn_of_py (o : PyObject) : LDAPDN :=
  map rdn_of_py (yielded (PyObject_GetIter o)).

(** What the loops make of their marshalling state over a well-shaped
    value: for each triple the exception [PyLong_AsLong] may set and the
    store of [rdn[j]], and for each RDN the store of [dn[i]]. *)
Definition marshal_ava (mem : Memory) (i j : nat) (o : PyObject) (st : Marshalling)
  : Marshalling :=
  store mem (RdnArray i) j
    (set_error (snd (PyLong_AsLong (PyTuple_GetItem (PyList_AsTuple o) 2))) st).

Fixpoint marshal_avas (mem : Memory) (i j : nat) (items : list PyObject)
         (st : Marshalling) : Marshalling :=
  match items with
  | [] => st
  | o :: rest => marshal_avas mem i (S j) rest (marshal_ava mem i j o st)
  end.

Definition marshal_rdn (mem : Memory) (i : nat) (o : PyObject) (st : Marshalling)
  : Marshalling :=
  store mem DnArray i (marshal_avas mem i 0 (yielded (PyObject_GetIter o)) st).

Fixpoint marshal_rdns (mem : Memory) (i : nat) (items : list PyObject)
         (st : Marshalling) : Marshalling :=
  match items with
  | [] => st
  | o :: rest => marshal_rdns mem (S i) rest (marshal_rdn mem i o st)
  end.

Definition marshalled (L : Libldap) (o : PyObject) : Marshalling :=
  marshal_rdns (memory L) 0 (yielded (PyObject_GetIter o)) untouched.

(** A triple whose flags are beyond a C [long], and a value that holds
    one. *)
Definition flags_overflow (o : PyObject) : bool :=
  match PyTuple_GetItem (PyList_AsTuple o) 2 with
  | PyLong z => negb (fits_long z)
  | _ => false
  end.

Definition overflows (o : PyObject) : bool :=
  existsb (fun rdn => existsb flags_overflow (yielded (PyObject_GetIter rdn)))
    (yielded (PyObject_GetIter o)).

(** The value without the elements past the third of each triple. *)
Definition trim_triple (o : PyObject) : PyObject :=
  match o with
  | PyList items => PyList (firstn 3 items)
  | PyTuple items => PyTuple (firstn 3 items)
  | _ => o
  end.

Definition trim_rdn (o : PyObject) : PyObject :=
  match o with
  | PyList items => PyList (map trim_triple items)
  | PyTuple items => PyTuple (map trim_triple items)
  | _ => o
  end.

Definition trim_dn (o : PyObject) : PyObject :=
  match o with
  | PyList items => PyList (map trim_rdn items)
  | PyTuple items => PyTuple (map trim_rdn items)
  | PyIterator items => PyIterator (map trim_rdn items)
  | _ => o
  end.

(** The blocks [l_ldap_dn2str] obtains for the RDNs [dn], the first of
    which has index [i]. *)
Fixpoint blocks_from (i : nat) (dn : LDAPDN) : list alloc :=
  match dn with
  | [] => []
  | rdn :: rest =>
      RdnArray i :: map (AvaRecord i) (seq 0 (List.length rdn)) ++ blocks_from (S i) rest
  end.

(** How [l_ldap_dn2str] ends once [ldap_dn2bv] has been called on arrays
    [dn] that are ended, with no exception set. *)
Definition serialised (L : Libldap) (dn : LDAPDN) (flags : Z) : PyObject + PyErr :=
  let (res, str) := ldap_dn2bv L dn flags in
  if res =? LDAP_SUCCESS L then inl (PyUnicode (PyUnicode_FromString str))
  else inr (LDAPerr res).

(** The two ownership bits together. *)
Definition owner_bits (L : Libldap) : Z :=
  Z.lor (LDAP_AVA_FREE_ATTR L) (LDAP_AVA_FREE_VALUE L).

(** The constants are [unsigned] words. *)
Definition unsigned_constants (L : Libldap) : Prop :=
  0 <= LDAP_AVA_FREE_ATTR L < 2 ^ 32 /\ 0 <= LDAP_AVA_FREE_VALUE L < 2 ^ 32.

(** A returned value is hygienic when it is a list of lists of triples
    whose flags have neither ownership bit. *)
Definition hygienic_triple (L : Libldap) (t : PyObject) : Prop :=
  exists type value flags,
    t = PyTuple [type; value; PyLong flags]
    /\ Z.land flags (LDAP_AVA_FREE_ATTR L) = 0
    /\ Z.land flags (LDAP_AVA_FREE_VALUE L) = 0.

Definition hygienic (L : Libldap) (result : PyObject) : Prop :=
  exists rdns,
    result = PyList rdns
    /\ Forall (fun rdn => exists avas,
                   rdn = PyList avas /\ Forall (hygienic_triple L) avas) rdns.

(** [parse(build(d, f), f)]: the string [l_ldap_dn2str] returns for the
    nested lists of [d] goes to [l_ldap_str2dn] with the same flags. *)
Definition round_trip (L : Libldap) (d : DN) (f : Z) : M PyObject :=
  (s <- l_ldap_dn2str L [py_of_dn d; PyLong f] ;;
   l_ldap_str2dn L [s; PyLong f])%call.

(** The buffer [PyArg_ParseTuple] makes of a string argument. *)
Definition buffer_of (s : string) : berval :=
  {| bv_val := Some s; bv_len := Z.of_nat (String.length s) |}.

(** ** The syntax engine *)

(** Modelled from the spec: libldap's [ldap_bv2dn] and [ldap_dn2bv] are not
    part of the repository.  Every definition of the module below is
    written from sections 3, 4.1 and 4.2 of the specification, which
    describe the engine; together they give the interface [Libldap] an
    inhabitant on which the wrappers can be run. *)
Module Engine.

(** Modelled from the spec: the engine's return codes, "mapped from the
    underlying syntax-engine error code"; the numbers are those of
    OpenLDAP's [ldap.h] ([LDAP_SUCCESS], [LDAP_DECODING_ERROR]). *)
Definition SUCCESS : Z := 0.
Definition DECODING_ERROR : Z := -4.

(** Modelled from the spec: "flags records the encoding variant of the
    value (plain string vs. binary/hex)" next to the "internal, transient
    owns-this-buffer bits"; the numbers are those of OpenLDAP's [ldap.h]
    ([LDAP_AVA_STRING], [LDAP_AVA_BINARY], [LDAP_AVA_FREE_ATTR],
    [LDAP_AVA_FREE_VALUE]), and the comment of [l_ldap_str2dn] shows the
    1 of a plain string. *)
Definition AVA_STRING : Z := 1.
Definition AVA_BINARY : Z := 2.
Definition AVA_FREE_ATTR : Z := 16.
Definition AVA_FREE_VALUE : Z := 32.

Definition quote : ascii := ascii_of_nat 34.
Definition backslash : ascii := ascii_of_nat 92.

Definition in_range (lo hi : nat) (c : ascii) : bool :=
  let n := nat_of_ascii c in (lo <=? n)%nat && (n <=? hi)%nat.

Definition is_digit (c : ascii) : bool := in_range 48 57 c.

Definition is_alpha (c : ascii) : bool := in_range 65 90 c || in_range 97 122 c.

Definition hex_value (c : ascii) : option nat :=
  let n := nat_of_ascii c in
  if in_range 48 57 c then Some (n - 48)%nat
  else if in_range 97 102 c then Some (n - 87)%nat
  else if in_range 65 70 c then Some (n - 55)%nat
  else None.

Definition hex_digit (n : nat) : ascii :=
  ascii_of_nat (if (n <? 10)%nat then 48 + n else 87 + n)%nat.

(** Modelled from the spec: a backslash followed by one of the eight
    characters comma, plus, double quote, backslash, less-than,
    greater-than, semicolon and equals "is a literal occurrence of that
    character". *)
Definition is_special (c : ascii) : bool :=
  existsb (Ascii.eqb c) [","; "+"; quote; backslash; "<"; ">"; ";"; "="]%char.

(** Modelled from the spec: "a leading/trailing space and a leading [#]
    carry special unescape handling": both may follow a backslash. *)
Definition is_escapable (c : ascii) : bool :=
  is_special c || Ascii.eqb c " " || Ascii.eqb c "#".

(** Modelled from the spec: "AttributeType := descriptor | numericoid
    ([oid.oid.oid...] form permitted)", never empty. *)
Fixpoint numericoid_rest (cs : list ascii) (after_dot : bool) : bool :=
  match cs with
  | [] => negb after_dot
  | c :: rest =>
      if is_digit c then numericoid_rest rest false
      else if Ascii.eqb c "." && negb after_dot then numericoid_rest rest true
      else false
  end.

Definition valid_type (cs : list ascii) : bool :=
  match cs with
  | [] => false
  | c :: rest =>
      if is_alpha c
      then forallb (fun x => is_alpha x || is_digit x || Ascii.eqb x "-") rest
      else if is_digit c then numericoid_rest rest false
      else false
  end.

(** Modelled from the spec: the states of "ReadType -> ReadEquals ->
    ReadValue{Plain|Quoted|Hex} -> ReadSeparator".  [ReadValue] is the
    state just after the [=]; the escape states hold the first digit of
    a hex pair. *)
Inductive phase : Type :=
| ReadType
| ReadValue
| Plain
| PlainEscape
| PlainHex (hi : nat)
| Quoted
| QuotedEscape
| QuotedHex (hi : nat)
| ReadSeparator
| Hex
| HexLow (hi : nat).

(** The machine: its state, the octets of the type and the value being
    read, the AVAs of the RDN being read and the RDNs read, all latest
    first. *)
Record parser : Type :=
  { state : phase;
    type_acc : list ascii;
    value_acc : list ascii;
    rdn_acc : list LDAPAVA;
    dn_acc : list LDAPRDN }.

Definition berval_of (cs : list ascii) : berval :=
  {| bv_val := Some (string_of_list_ascii cs); bv_len := Z.of_nat (List.length cs) |}.

(** The AVA just read; the parser owns both of its buffers. *)
Definition read_ava (p : parser) (variant : Z) : LDAPAVA :=
  {| la_attr := berval_of (rev (type_acc p));
     la_value := berval_of (rev (value_acc p));
     la_flags := Z.lor variant (Z.lor AVA_FREE_ATTR AVA_FREE_VALUE) |}.

Definition is_separator (c : ascii) : bool :=
  Ascii.eqb c "," || Ascii.eqb c ";" || Ascii.eqb c "+".

(** Modelled from the spec: "looping back to ReadType after a [,]/[;]
    separator (new RDN) or to a fresh ReadType within the same RDN after
    a [+] separator". *)
Definition separate (p : parser) (variant : Z) (c : ascii) : parser :=
  let rdn := read_ava p variant :: rdn_acc p in
  if Ascii.eqb c "+"
  then {| state := ReadType; type_acc := []; value_acc := [];
          rdn_acc := rdn; dn_acc := dn_acc p |}
  else {| state := ReadType; type_acc := []; value_acc := [];
          rdn_acc := []; dn_acc := rev rdn :: dn_acc p |}.

Definition goto (p : parser) (s : phase) : parser :=
  {| state := s; type_acc := type_acc p; value_acc := value_acc p;
     rdn_acc := rdn_acc p; dn_acc := dn_acc p |}.

Definition push_value (p : parser) (s : phase) (c : ascii) : parser :=
  {| state := s; type_acc := type_acc p; value_acc := c :: value_acc p;
     rdn_acc := rdn_acc p; dn_acc := dn_acc p |}.

Definition push_type (p : parser) (c : ascii) : parser :=
  {| state := ReadType; type_acc := c :: type_acc p; value_acc := value_acc p;
     rdn_acc := rdn_acc p; dn_acc := dn_acc p |}.

Definition plain_step (p : parser) (c : ascii) : option parser :=
  if is_separator c then Some (separate p AVA_STRING c)
  else if Ascii.eqb c backslash then Some (goto p PlainEscape)
  else Some (push_value p Plain c).

Definition escape_step (p : parser) (back : phase) (pair : nat -> phase) (c : ascii)
  : option parser :=
  if is_escapable c then Some (push_value p back c)
  else match hex_value c with
       | Some hi => Some (goto p (pair hi))
       | None => None
       end.

Definition pair_step (p : parser) (back : phase) (hi : nat) (c : ascii)
  : option parser :=
  match hex_value c with
  | Some lo => Some (push_value p back (ascii_of_nat (16 * hi + lo)))
  | None => None
  end.

(** Modelled from the spec: one octet of input, "processed left to
    right"; [None] is a fatal parse error. *)
Definition step (p : parser) (c : ascii) : option parser :=
  match state p with
  | ReadType =>
      if Ascii.eqb c "="
      then if valid_type (rev (type_acc p)) then Some (goto p ReadValue) else None
      else Some (push_type p c)
  | ReadValue =>
      if Ascii.eqb c quote then Some (goto p Quoted)
      else if Ascii.eqb c "#" then Some (goto p Hex)
      else plain_step p c
  | Plain => plain_step p c
  | PlainEscape => escape_step p Plain PlainHex c
  | PlainHex hi => pair_step p Plain hi c
  | Quoted =>
      if Ascii.eqb c quote then Some (goto p ReadSeparator)
      else if Ascii.eqb c backslash then Some (goto p QuotedEscape)
      else Some (push_value p Quoted c)
  | QuotedEscape => escape_step p Quoted QuotedHex c
  | QuotedHex hi => pair_step p Quoted hi c
  | ReadSeparator =>
      if is_separator c then Some (separate p AVA_STRING c) else None
  | Hex =>
      if is_separator c then Some (separate p AVA_BINARY c)
      else match hex_value c with
           | Some hi => Some (goto p (HexLow hi))
           | None => None
           end
  | HexLow hi => pair_step p Hex hi c
  end.

(** Modelled from the spec: "Terminal/accept state is reached only at
    end-of-input with no AVA left incomplete", and "empty input is the
    valid empty DN". *)
Definition accept (p : parser) : option LDAPDN :=
  let close variant := Some (rev (rev (read_ava p variant :: rdn_acc p) :: dn_acc p)) in
  match state p with
  | ReadType =>
      match type_acc p, rdn_acc p, dn_acc p with
      | [], [], [] => Some []
      | _, _, _ => None
      end
  | ReadValue | Plain | ReadSeparator => close AVA_STRING
  | Hex => close AVA_BINARY
  | _ => None
  end.

Fixpoint parse (p : parser) (input : list ascii) : option LDAPDN :=
  match input with
  | [] => accept p
  | c :: rest =>
      match step p c with
      | Some p' => parse p' rest
      | None => None
      end
  end.

Definition start : parser :=
  {| state := ReadType; type_acc := []; value_acc := []; rdn_acc := []; dn_acc := [] |}.

(** The [bv_len] octets a berval holds. *)
Definition octets (bv : berval) : list ascii :=
  match bv_val bv with
  | Some s => list_ascii_of_string (substring 0 (Z.to_nat (bv_len bv)) s)
  | None => []
  end.

(** Modelled from the spec: [parse(input, flags) -> DN | DNSyntaxError];
    the spec names no dialect bit of [flags], and the grammar of its
    section 4.1 is read for every value of it. *)
Definition bv2dn (str : berval) (flags : Z) : Z * LDAPDN :=
  match parse start (octets str) with
  | Some dn => (SUCCESS, dn)
  | None => (DECODING_ERROR, [])
  end.

(** Modelled from the spec: "escape re-introduces backslash-escaping for
    every character in the standard special set, hex-encodes the value
    instead when the AVA's flags indicate binary/hex encoding". *)
Definition escape_octet (leading : bool) (c : ascii) : list ascii :=
  if is_special c || (leading && (Ascii.eqb c " " || Ascii.eqb c "#"))
  then [backslash; c] else [c].

Definition escape_plain (value : list ascii) : list ascii :=
  match value with
  | [] => []
  | c :: rest => escape_octet true c ++ flat_map (escape_octet false) rest
  end.

Definition hex_encode (value : list ascii) : list ascii :=
  flat_map (fun c => let n := nat_of_ascii c in
                     [hex_digit (n / 16); hex_digit (n mod 16)]) value.

Definition escape (value : list ascii) (flags : Z) : list ascii :=
  if Z.land flags AVA_BINARY =? 0 then escape_plain value
  else "#"%char :: hex_encode value.

Fixpoint join (sep : ascii) (parts : list (list ascii)) : list ascii :=
  match parts with
  | [] => []
  | [part] => part
  | part :: rest => part ++ sep :: join sep rest
  end.

(** Modelled from the spec: "for each RDN, serialize each AVA as
    [type '=' escape(value, valueFlags)] and join AVAs with [+]; join RDNs
    with [,]". *)
Definition ava_text (ava : LDAPAVA) : list ascii :=
  octets (la_attr ava) ++ "="%char :: escape (octets (la_value ava)) (la_flags ava).

Definition rdn_text (rdn : LDAPRDN) : list ascii := join "+" (map ava_text rdn).

Definition dn2bv (dn : LDAPDN) (flags : Z) : Z * string :=
  (SUCCESS, string_of_list_ascii (join "," (map rdn_text dn))).

(** The engine in the memory C promises, and in one that forgives. *)
Definition libldap : Libldap :=
  {| LDAP_SUCCESS := SUCCESS;
     LDAP_AVA_FREE_ATTR := AVA_FREE_ATTR;
     LDAP_AVA_FREE_VALUE := AVA_FREE_VALUE;
     ldap_bv2dn := bv2dn;
     ldap_dn2bv := dn2bv;
     memory := exact_memory |}.

Definition lenient : Libldap :=
  {| LDAP_SUCCESS := SUCCESS;
     LDAP_AVA_FREE_ATTR := AVA_FREE_ATTR;
     LDAP_AVA_FREE_VALUE := AVA_FREE_VALUE;
     ldap_bv2dn := bv2dn;
     ldap_dn2bv := dn2bv;
     memory := lenient_memory |}.

(** A DN of two RDNs, the first of two AVAs, with a separator and a
    leading [#] among its values and one binary value; the text the
    engine writes for it, and the DN the engine reads back from that
    text. *)
Definition sample_dn : DN :=
  [[("cn", "a,b", AVA_STRING); ("sn", "#c", AVA_STRING)]; [("dc", "AB", AVA_BINARY)]].

Definition sample_text : string :=
  Eval vm_compute in snd (dn2bv (dn_of_py (py_of_dn sample_dn)) 0).

Definition sample_parsed : LDAPDN :=
  Eval vm_compute in snd (bv2dn (buffer_of (PyUnicode_FromString sample_text)) 0).

End Engine.

(** ** Values that [l_ldap_dn2str] cannot tell apart *)

(** The same elements in tuples: every RDN and every triple that is a list
    becomes the tuple of its elements, and so does the outer list. *)
Definition rdn_as_tuple (o : PyObject) : PyObject :=
  match o with
  | PyList items | PyTuple items => PyTuple (map PyList_AsTuple items)
  | _ => o
  end.

Definition dn_as_tuples (o : PyObject) : PyObject :=
  match o with
  | PyList items | PyTuple items => PyTuple (map rdn_as_tuple items)
  | PyIterator items => PyIterator (map rdn_as_tuple items)
  | _ => o
  end.

(** The flags of a triple as the record will hold them: the integer read
    by [PyLong_AsLong], cast to [int] and stored in an [unsigned]. *)
Definition stored_flags (z : Z) : Z :=
  to_uint32 (to_int32 (fst (PyLong_AsLong (PyLong z)))).

(** ** What [l_ldap_dn2str] makes of what [l_ldap_str2dn] returned *)

(** The buffer made of the string that was made of a buffer: the octets
    within the length, and their number cast to [int] and stored in a
    [ber_len_t]. *)
Definition recopied (bv : berval) : berval :=
  match bv_val bv with
  | Some s =>
      let text := substring 0 (Z.to_nat (bv_len bv)) s in
      {| bv_val := Some text;
         bv_len := to_ulong (to_int32 (Z.of_nat (String.length text))) |}
  | None => {| bv_val := None; bv_len := to_ulong (to_int32 (-1)) |}
  end.

(** The record made of the tuple that was made of a record of the engine. *)
Definition remade (L : Libldap) (ava : LDAPAVA) : LDAPAVA :=
  {| la_attr := recopied (la_attr ava);
     la_value := recopied (la_value ava);
     la_flags := Z.land (la_flags ava) (u32_not (owner_bits L)) |}.

(** Both buffers of every AVA hold a string. *)
Definition has_buffers (ava : LDAPAVA) : bool :=
  match bv_val (la_attr ava), bv_val (la_value ava) with
  | Some _, Some _ => true
  | _, _ => false
  end.

(** ** Opening a connection: [l_ldap_initialize], [l_ldap_initialize_fd] *)

(** A handle of libldap ([LDAP *]); [None] is the null pointer. *)
Definition LDAP : Type := nat.

(** The one field of [LDAPURLDesc] the module reads. *)
Record LDAPURLDesc : Type := { lud_scheme : string }.

(** What the two functions take from libldap and from the build: the
    protocol constants, whether [LDAP_CONNECTIONLESS] is defined, and the
    three library functions, each as its return code and what it stores
    through its out-parameter. *)
Record Sessions : Type :=
  { LDAP_PROTO_TCP : Z;
    LDAP_PROTO_UDP : Z;
    LDAP_PROTO_IPC : Z;
    LDAP_CONNECTIONLESS : bool;
    ldap_initialize : string -> Z * option LDAP;
    ldap_url_parse : string -> Z * LDAPURLDesc;
    ldap_init_fd : Z -> Z -> string -> Z * option LDAP }.

(** What a call does outside itself, in order. *)
Inductive Event : Type :=
| PyEval_SaveThread
| PyEval_RestoreThread
| Call_ldap_initialize (uri : string)
| Call_ldap_url_parse (url : string) (ret : Z)
| Call_ldap_free_urldesc
| Call_ldap_init_fd (fd proto : Z) (url : string).

(** Modelled from the spec: [newLDAPObject] (LDAPObject.c) and [LDAPerror]
    (constants.c) are not among the sources; they are the two ends of
    "open(uri) -> handle | error": the object that wraps the handle, and
    the failure raised from the error the handle holds. *)
Inductive Opened : Type :=
| newLDAPObject (ld : option LDAP).

(** How a call fails: with an exception of [PyErr] ([PyArg_ParseTuple]'s,
    or [LDAPerr(ret)]), with the [ValueError] of [PyArg_ParseTuple] for a
    string that holds a NUL, with [PyErr_SetString(PyExc_ValueError, msg)],
    or with [LDAPerror(ld)]. *)
Inductive OpenErr : Type :=
| Raised (e : PyErr)
| ArgValueError
| PyExc_ValueError (msg : string)
| LDAPerror (ld : option LDAP).

Definition has_nul (s : string) : bool :=
  existsb (fun c => Ascii.eqb c zero) (list_ascii_of_string s).

(** Format unit [s]: a [str] without NUL, as a C string. *)
Definition arg_string (o : PyObject) : string + OpenErr :=
  match o with
  | PyUnicode s => if has_nul s then inr ArgValueError else inl s
  | _ => inr (Raised ArgTypeError)
  end.

(** [PyArg_ParseTuple(args, "s:initialize", &uri)]. *)
Definition parse_args_initialize (args : list PyObject) : string + OpenErr :=
  match args with
  | [u] => arg_string u
  | _ => inr (Raised ArgTypeError)
  end.

(** [PyArg_ParseTuple(args, "is:initialize_fd", &fd, &url)]. *)
Definition parse_args_initialize_fd (args : list PyObject) : (Z * string) + OpenErr :=
  match args with
  | [f; u] =>
      match arg_int f with
      | inl fd =>
          match arg_string u with
          | inl url => inl (fd, url)
          | inr e => inr e
          end
      | inr e => inr (Raised e)
      end
  | _ => inr (Raised ArgTypeError)
  end.

Section Opening.

Variable L : Libldap.
Variable Net : Sessions.

(** The library call is made between [PyEval_SaveThread] and
    [PyEval_RestoreThread]; a failure is raised from the handle. *)
Definition l_ldap_initialize (args : list PyObject) : (Opened + OpenErr) * list Event :=
  match parse_args_initialize args with
  | inr e => (inr e, [])
  | inl uri =>
      let (ret, ld) := ldap_initialize Net uri in
      let trace := [PyEval_SaveThread; Call_ldap_initialize uri; PyEval_RestoreThread] in
      if negb (ret =? LDAP_SUCCESS L) then (inr (LDAPerror ld), trace)
      else (inl (newLDAPObject ld), trace)
  end.

(** The chain of [strcmp]s on [lud->lud_scheme]; the [cldap] arm is
    compiled under [LDAP_CONNECTIONLESS]. *)
Definition scheme_proto (scheme : string) : option Z :=
  if String.eqb scheme "ldap" then Some (LDAP_PROTO_TCP Net)
  else if String.eqb scheme "ldaps" then Some (LDAP_PROTO_TCP Net)
  else if String.eqb scheme "ldapi" then Some (LDAP_PROTO_IPC Net)
  else if LDAP_CONNECTIONLESS Net && String.eqb scheme "cldap" then Some (LDAP_PROTO_UDP Net)
  else None.

(** The function is compiled under [HAVE_LDAP_INIT_FD].  The URL is parsed
    for its scheme, the descriptor is released on both arms, and
    [ldap_init_fd] gets the caller's descriptor ([(ber_socket_t) fd], an
    [int]) and the caller's URL again. *)
Definition l_ldap_initialize_fd (args : list PyObject) : (Opened + OpenErr) * list Event :=
  match parse_args_initialize_fd args with
  | inr e => (inr e, [])
  | inl (fd, url) =>
      let (ret, lud) := ldap_url_parse Net url in
      if negb (ret =? LDAP_SUCCESS L)
      then (inr (Raised (LDAPerr ret)), [Call_ldap_url_parse url ret])
      else
        match scheme_proto (lud_scheme lud) with
        | None =>
            (inr (PyExc_ValueError "unsupported URL scheme"),
             [Call_ldap_url_parse url ret; Call_ldap_free_urldesc])
        | Some proto =>
            let (ret', ld) := ldap_init_fd Net fd proto url in
            let trace := [Call_ldap_url_parse url ret; Call_ldap_free_urldesc;
                          PyEval_SaveThread; Call_ldap_init_fd fd proto url;
                          PyEval_RestoreThread] in
            if negb (ret' =? LDAP_SUCCESS L) then (inr (LDAPerror ld), trace)
            else (inl (newLDAPObject ld), trace)
        end
  end.

End Opening.

(** Whether the thread state is saved (the interpreter lock given up)
    after a trace that began with it held; [None] when a save or a restore
    comes out of turn. *)
Fixpoint thread_saved (saved : bool) (trace : list Event) : option bool :=
  match trace with
  | [] => Some saved
  | PyEval_SaveThread :: rest => if saved then None else thread_saved true rest
  | PyEval_RestoreThread :: rest => if saved then thread_saved false rest else None
  | _ :: rest => thread_saved saved rest
  end.

(** The calls of libldap made while the thread state is held. *)
Fixpoint calls_while_held (saved : bool) (trace : list Event) : list Event :=
  match trace with
  | [] => []
  | PyEval_SaveThread :: rest => calls_while_held true rest
  | PyEval_RestoreThread :: rest => calls_while_held false rest
  | ev :: rest => if saved then calls_while_held saved rest
                  else ev :: calls_while_held saved rest
  end.

(** The calls of libldap made while the thread state is saved. *)
Fixpoint calls_while_saved (saved : bool) (trace : list Event) : list Event :=
  match trace with
  | [] => []
  | PyEval_SaveThread :: rest => calls_while_saved true rest
  | PyEval_RestoreThread :: rest => calls_while_saved false rest
  | ev :: rest => if saved then ev :: calls_while_saved saved rest
                  else calls_while_saved saved rest
  end.

(** The URL descriptors a trace leaves unreleased: one more for each
    successful [ldap_url_parse], one less for each [ldap_free_urldesc];
    [None] when a release finds none. *)
Fixpoint descriptors_left (success : Z) (held : nat) (trace : list Event) : option nat :=
  match trace with
  | [] => Some held
  | Call_ldap_url_parse _ ret :: rest =>
      descriptors_left success (if ret =? success then S held else held) rest
  | Call_ldap_free_urldesc :: rest =>
      match held with
      | O => None
      | S held' => descriptors_left success held' rest
      end
  | _ :: rest => descriptors_left success held rest
  end.

Definition is_init_fd (ev : Event) : bool :=
  match ev with Call_ldap_init_fd _ _ _ => true | _ => false end.

(** Case analysis on the objects a shape hypothesis inspects. *)
Ltac split_object :=
  repeat match goal with
         | H : context [match ?x with _ => _ end] |- _ =>
             is_var x; destruct x; try discriminate H
         end.

(** * Properties *)

(** ** Flag words *)

Section FlagWords.

Lemma to_int32_testbit (z i : Z) :
  0 <= i < 32 -> Z.testbit (to_int32 z) i = Z.testbit z i.
Proof.
  intros Hi. unfold to_int32. cbv zeta.
  destruct (z mod 2 ^ 32 <? 2 ^ 31).
  - apply Z.mod_pow2_bits_low. lia.
  - rewrite <- (Z.mod_pow2_bits_low (z mod 2 ^ 32 - 2 ^ 32) 32 i) by lia.
    replace (z mod 2 ^ 32 - 2 ^ 32) with (z mod 2 ^ 32 + (-1) * 2 ^ 32) by ring.
    rewrite Z.mod_add by lia. rewrite Z.mod_mod by lia.
    apply Z.mod_pow2_bits_low. lia.
Qed.

Lemma to_int32_of_int (z : Z) : fits_int z = true -> to_int32 (to_uint32 z) = z.
Proof.
  unfold fits_int, INT_MIN, INT_MAX, to_int32, to_uint32. intros H.
  apply andb_true_iff in H. destruct H as [Hlo Hhi].
  apply Z.leb_le in Hlo. apply Z.leb_le in Hhi.
  cbv zeta. rewrite Z.mod_mod by lia.
  destruct (Z.ltb_spec z 0) as [Hneg | Hpos].
  - replace (z mod 2 ^ 32) with (z + 2 ^ 32).
    + destruct (Z.ltb_spec (z + 2 ^ 32) (2 ^ 31)); lia.
    + apply (Z.mod_unique_pos z (2 ^ 32) (-1)); lia.
  - rewrite Z.mod_small by lia.
    destruct (Z.ltb_spec z (2 ^ 31)); lia.
Qed.

Lemma unsigned_testbit_high (m i : Z) :
  0 <= m < 2 ^ 32 -> 32 <= i -> Z.testbit m i = false.
Proof.
  intros Hm Hi. rewrite <- (Z.mod_small m (2 ^ 32)) by lia.
  apply Z.mod_pow2_bits_high. lia.
Qed.

Lemma u32_not_testbit_low (x i : Z) :
  0 <= i < 32 -> Z.testbit (u32_not x) i = negb (Z.testbit x i).
Proof.
  intros Hi. unfold u32_not, to_uint32.
  rewrite Z.lxor_spec, Z.mod_pow2_bits_low, Z.ones_spec_low by lia.
  apply xorb_true_r.
Qed.

Lemma u32_not_testbit_high (x i : Z) :
  32 <= i -> Z.testbit (u32_not x) i = false.
Proof.
  intros Hi. unfold u32_not, to_uint32.
  rewrite Z.lxor_spec, Z.mod_pow2_bits_high, Z.ones_spec_high by lia.
  reflexivity.
Qed.

(** The word that [l_ldap_str2dn] puts in a tuple has none of the bits of
    the mask. *)
Lemma masked_word_clear (la m : Z) :
  0 <= m < 2 ^ 32 -> Z.land (to_int32 (Z.land la (u32_not m))) m = 0.
Proof.
  intros Hm. apply Z.bits_inj'. intros i Hi.
  rewrite Z.land_spec, Z.bits_0.
  destruct (Z.ltb_spec i 32) as [Hlow | Hhigh].
  - rewrite to_int32_testbit, Z.land_spec, u32_not_testbit_low by lia.
    destruct (Z.testbit la i), (Z.testbit m i); reflexivity.
  - rewrite (unsigned_testbit_high m i) by lia. apply andb_false_r.
Qed.

Lemma land_lor_zero (a b c : Z) :
  Z.land a (Z.lor b c) = 0 -> Z.land a b = 0 /\ Z.land a c = 0.
Proof.
  rewrite Z.land_lor_distr_r. apply Z.lor_eq_0_iff.
Qed.

Lemma owner_bits_range (L : Libldap) :
  unsigned_constants L -> 0 <= owner_bits L < 2 ^ 32.
Proof.
  intros [[Ha Ha'] [Hv Hv']]. unfold owner_bits. split.
  - apply Z.lor_nonneg; split; assumption.
  - destruct (Z.eq_dec (Z.lor (LDAP_AVA_FREE_ATTR L) (LDAP_AVA_FREE_VALUE L)) 0) as [E | E].
    + rewrite E. reflexivity.
    + apply Z.log2_lt_pow2.
      * assert (0 <= Z.lor (LDAP_AVA_FREE_ATTR L) (LDAP_AVA_FREE_VALUE L))
          by (apply Z.lor_nonneg; split; assumption). lia.
      * rewrite Z.log2_lor by assumption.
        apply Z.max_lub_lt.
        -- destruct (Z.eq_dec (LDAP_AVA_FREE_ATTR L) 0) as [E0 | E0].
           ++ rewrite E0. simpl. lia.
           ++ apply Z.log2_lt_pow2; lia.
        -- destruct (Z.eq_dec (LDAP_AVA_FREE_VALUE L) 0) as [E0 | E0].
           ++ rewrite E0. simpl. lia.
           ++ apply Z.log2_lt_pow2; lia.
Qed.

End FlagWords.

(** ** [l_ldap_str2dn]: the lists it builds *)

Section Str2dn.

Variable L : Libldap.

Lemma PyList_Append_last (st : ListStore) (l : list PyObject) (o : PyObject) :
  PyList_Append (st ++ [l]) (List.length st) o = st ++ [l ++ [o]].
Proof.
  induction st as [| l0 st IH]; simpl.
  - reflexivity.
  - rewrite IH. reflexivity.
Qed.

(** The inner loop fills the list created last. *)
Lemma str2dn_avas_fills (rdn : LDAPRDN) (st : ListStore) (l : list PyObject) :
  str2dn_avas L rdn (List.length st) (st ++ [l]) = st ++ [l ++ map (ava_tuple L) rdn].
Proof.
  revert l. induction rdn as [| ava rdn IH]; intros l; simpl.
  - rewrite app_nil_r. reflexivity.
  - rewrite PyList_Append_last, IH, <- app_assoc. reflexivity.
Qed.

(** The outer loop creates one list per RDN, in order, and [tmp] refers to
    them in order. *)
Lemma str2dn_rdns_builds (dn : LDAPDN) (tmp : list nat) (st : ListStore) :
  str2dn_rdns L dn tmp st
  = (tmp ++ seq (List.length st) (List.length dn), st ++ map (map (ava_tuple L)) dn).
Proof.
  revert tmp st. induction dn as [| rdn dn IH]; intros tmp st; simpl.
  - rewrite !app_nil_r. reflexivity.
  - rewrite (str2dn_avas_fills rdn st []). simpl.
    rewrite IH. rewrite <- !app_assoc. simpl.
    rewrite length_app. simpl. rewrite Nat.add_1_r. reflexivity.
Qed.

Lemma nth_seq_map {A B : Type} (g : A -> B) (d : A) (pre l : list A) :
  map (fun r => g (nth r (pre ++ l) d)) (seq (List.length pre) (List.length l)) = map g l.
Proof.
  revert pre. induction l as [| x l IH]; intros pre; simpl.
  - reflexivity.
  - rewrite app_nth2, Nat.sub_diag by lia. simpl. f_equal.
    specialize (IH (pre ++ [x])).
    rewrite <- app_assoc, length_app in IH. simpl in IH.
    rewrite Nat.add_1_r in IH. exact IH.
Qed.

(** The object returned for the DN of the engine. *)
Lemma str2dn_result (dn : LDAPDN) :
  (let (tmp, st) := str2dn_rdns L dn [] [] in list_object st tmp)
  = PyList (map (fun rdn => PyList (map (ava_tuple L) rdn)) dn).
Proof.
  rewrite str2dn_rdns_builds. unfold list_object. f_equal.
  pose proof (nth_seq_map PyList [] [] (map (map (ava_tuple L)) dn)) as H.
  rewrite length_map, map_map in H. exact H.
Qed.

(** The call when the engine accepts the text. *)
Lemma str2dn_accepted (args : list PyObject) (str : berval) (flags : Z)
      (dn : LDAPDN) (w : World) :
  parse_args_str2dn args = inl (str, flags) ->
  ldap_bv2dn L str flags = (LDAP_SUCCESS L, dn) ->
  l_ldap_str2dn L args w
  = (inl (PyList (map (fun rdn => PyList (map (ava_tuple L) rdn)) dn)),
     {| live := remove_first ParsedDn (live w ++ [ParsedDn]);
        released := released w ++ [ParsedDn];
        taken := taken w |}).
Proof.
  intros Hargs Hdn. unfold l_ldap_str2dn, bind, lift.
  rewrite Hargs, Hdn, Z.eqb_refl. simpl.
  pose proof (str2dn_result dn) as H.
  destruct (str2dn_rdns L dn [] []) as [tmp st]. rewrite H. reflexivity.
Qed.

(** The call when the engine refuses the text: the exception carries the
    code, and nothing else comes back. *)
Lemma str2dn_refused (args : list PyObject) (str : berval) (flags : Z) (w : World) :
  parse_args_str2dn args = inl (str, flags) ->
  fst (ldap_bv2dn L str flags) <> LDAP_SUCCESS L ->
  l_ldap_str2dn L args w = (inr (LDAPerr (fst (ldap_bv2dn L str flags))), w).
Proof.
  intros Hargs Hres. unfold l_ldap_str2dn, bind, lift. rewrite Hargs.
  destruct (ldap_bv2dn L str flags) as [res dn]. simpl in *.
  apply Z.eqb_neq in Hres. rewrite Hres. reflexivity.
Qed.

(** Whatever the call returns is the list of lists of tuples of some DN of
    the engine. *)
Lemma str2dn_returns (args : list PyObject) (result : PyObject) (w w' : World) :
  l_ldap_str2dn L args w = (inl result, w') ->
  exists dn, result = PyList (map (fun rdn => PyList (map (ava_tuple L) rdn)) dn).
Proof.
  unfold l_ldap_str2dn, bind, lift.
  destruct (parse_args_str2dn args) as [[str flags] | e]; [| discriminate].
  destruct (ldap_bv2dn L str flags) as [res dn].
  destruct (res =? LDAP_SUCCESS L); simpl; [| discriminate].
  pose proof (str2dn_result dn) as H.
  destruct (str2dn_rdns L dn [] []) as [tmp st]. rewrite H.
  intros E. injection E as E _. exists dn. symmetry. exact E.
Qed.

Lemma ava_tuple_hygienic (ava : LDAPAVA) :
  unsigned_constants L -> hygienic_triple L (ava_tuple L ava).
Proof.
  intros HL. unfold ava_tuple, hygienic_triple.
  eexists _, _, _. split; [reflexivity |].
  apply land_lor_zero. apply masked_word_clear.
  apply owner_bits_range, HL.
Qed.

Lemma str2dn_hygienic (dn : LDAPDN) :
  unsigned_constants L ->
  hygienic L (PyList (map (fun rdn => PyList (map (ava_tuple L) rdn)) dn)).
Proof.
  intros HL. eexists. split; [reflexivity |].
  apply Forall_map, Forall_forall. intros rdn _.
  eexists. split; [reflexivity |].
  apply Forall_map, Forall_forall. intros ava _.
  apply ava_tuple_hygienic, HL.
Qed.

End Str2dn.

(** ** [l_ldap_dn2str]: the checks of its two loops *)

Section Dn2str.

Variable L : Libldap.

Lemma PyTuple_Size_three (a b c : PyObject) (rest : list PyObject) :
  (PyTuple_Size (PyTuple (a :: b :: c :: rest)) <? 3) = false.
Proof.
  apply Z.ltb_ge. unfold PyTuple_Size. simpl List.length. lia.
Qed.

(** One turn of the inner loop on a triple: a record is allocated and
    stored. *)
Lemma dn2str_avas_triple (i : nat) (next : PyObject) (rest : list PyObject)
      (j : nat) (rdn : LDAPRDN) (st : Marshalling) (w : World) :
  is_triple next = true ->
  dn2str_avas L i (next :: rest) j rdn st w
  = dn2str_avas L i rest (S j) (rdn ++ [ava_of_py next]) (marshal_ava (memory L) i j next st)
      {| live := live w ++ [AvaRecord i j]; released := released w; taken := taken w |}.
Proof.
  intros H. unfold is_triple in H. split_object.
  - cbn [dn2str_avas PyList_Check PyList_AsTuple PyTuple_Check negb orb].
    rewrite PyTuple_Size_three. reflexivity.
  - cbn [dn2str_avas PyList_Check PyList_AsTuple PyTuple_Check negb orb].
    rewrite PyTuple_Size_three. reflexivity.
Qed.

(** One turn of the inner loop on anything else: the exception is set and
    the call leaves for [failed:], the world as it was. *)
Lemma dn2str_avas_other (i : nat) (next : PyObject) (rest : list PyObject)
      (j : nat) (rdn : LDAPRDN) (st : Marshalling) (w : World) :
  is_triple next = false ->
  dn2str_avas L i (next :: rest) j rdn st w
  = (inr (failed L st (PyExc_TypeError type_error_message)), w).
Proof.
  intros H.
  destruct next as [| z | s | s | items | items | items]; try reflexivity.
  - destruct items as [| a [| b [| c items]]]; try reflexivity.
    cbn [dn2str_avas PyList_Check PyList_AsTuple PyTuple_Check negb orb].
    rewrite PyTuple_Size_three.
    destruct a, b, c; try reflexivity; discriminate H.
  - destruct items as [| a [| b [| c items]]]; try reflexivity.
    cbn [dn2str_avas PyList_Check PyList_AsTuple PyTuple_Check negb orb].
    rewrite PyTuple_Size_three.
    destruct a, b, c; try reflexivity; discriminate H.
Qed.

(** The inner loop over triples only. *)
Lemma dn2str_avas_accepts (i : nat) (items : list PyObject) :
  forallb is_triple items = true ->
  forall (j : nat) (rdn : LDAPRDN) (st : Marshalling) (w : World),
    dn2str_avas L i items j rdn st w
    = (inl (rdn ++ map ava_of_py items, marshal_avas (memory L) i j items st),
       {| live := live w ++ map (AvaRecord i) (seq j (List.length items));
          released := released w;
          taken := taken w |}).
Proof.
  induction items as [| next rest IH]; intros H j rdn st w.
  - simpl. rewrite !app_nil_r. destruct w; reflexivity.
  - simpl in H. apply andb_true_iff in H. destruct H as [Hnext Hrest].
    rewrite dn2str_avas_triple by exact Hnext.
    rewrite IH by exact Hrest. simpl.
    rewrite <- !app_assoc. reflexivity.
Qed.

(** The inner loop with something that is not a triple among its
    elements: the call leaves for [failed:]; nothing is released and
    [iter] is where it was. *)
Lemma dn2str_avas_rejects (i : nat) (items : list PyObject) :
  forallb is_triple items = false ->
  forall (j : nat) (rdn : LDAPRDN) (st : Marshalling) (w : World),
  exists st' w',
    dn2str_avas L i items j rdn st w
    = (inr (failed L st' (PyExc_TypeError type_error_message)), w')
    /\ released w' = released w
    /\ taken w' = taken w
    /\ exists more, live w' = live w ++ more.
Proof.
  induction items as [| next rest IH]; intros H j rdn st w.
  - discriminate H.
  - simpl in H. destruct (is_triple next) eqn:Hnext.
    + rewrite dn2str_avas_triple by exact Hnext.
      destruct (IH H (S j) (rdn ++ [ava_of_py next]) (marshal_ava (memory L) i j next st)
                  {| live := live w ++ [AvaRecord i j];
                     released := released w; taken := taken w |})
        as (st' & w' & Hrun & Hrel & Htaken & more & Hlive).
      exists st', w'. simpl in *. repeat split; try assumption.
      exists (AvaRecord i j :: more). rewrite Hlive, <- app_assoc. reflexivity.
    + rewrite dn2str_avas_other by exact Hnext.
      exists st, w. repeat split. exists []. rewrite app_nil_r. reflexivity.
Qed.

(** What the outer loop makes of an element that is a list or tuple. *)
Lemma is_rdn_items (inext : PyObject) :
  is_rdn inext = true ->
  exists items,
    (inext = PyList items \/ inext = PyTuple items)
    /\ forallb is_triple items = true
    /\ rdn_of_py inext = map ava_of_py items.
Proof.
  destruct inext as [| z | s | s | items | items | items]; try discriminate;
    intros H; exists items; auto.
Qed.

(** A turn of the outer loop on a list or a tuple. *)
Lemma dn2str_rdns_container (c : PyObject) (items rest : list PyObject)
      (i : nat) (dn : LDAPDN) (st : Marshalling) (w : World) :
  c = PyList items \/ c = PyTuple items ->
  dn2str_rdns L (c :: rest) i dn st w
  = match dn2str_avas L i items 0 [] st
            {| live := live w ++ [RdnArray i]; released := released w;
               taken := S (taken w) |} with
    | (inl (rdn, st'), w') =>
        dn2str_rdns L rest (S i) (dn ++ [rdn]) (store (memory L) DnArray i st') w'
    | (inr e, w') => (inr e, w')
    end.
Proof.
  intros [-> | ->];
    cbn [dn2str_rdns PyList_Check PyList_AsTuple PyTuple_Check negb
           PyObject_GetIter yielded];
    unfold bind, advance, malloc; cbn [live released taken];
    destruct (dn2str_avas L i items 0 [] st _) as [[[rdn st'] | e] w']; reflexivity.
Qed.

(** A turn of the outer loop on anything else. *)
Lemma dn2str_rdns_stray (x : PyObject) (rest : list PyObject)
      (i : nat) (dn : LDAPDN) (st : Marshalling) (w : World) :
  PyList_Check x = false ->
  PyTuple_Check x = false ->
  dn2str_rdns L (x :: rest) i dn st w
  = (inr (failed L st (PyExc_TypeError type_error_message)),
     {| live := live w; released := released w; taken := S (taken w) |}).
Proof.
  intros Hl Ht. destruct x; try discriminate; reflexivity.
Qed.

Lemma dn2str_rdns_rdn (inext : PyObject) (rest : list PyObject)
      (i : nat) (dn : LDAPDN) (st : Marshalling) (w : World) :
  is_rdn inext = true ->
  dn2str_rdns L (inext :: rest) i dn st w
  = dn2str_rdns L rest (S i) (dn ++ [rdn_of_py inext]) (marshal_rdn (memory L) i inext st)
      {| live := live w ++ blocks_from i [rdn_of_py inext];
         released := released w;
         taken := S (taken w) |}.
Proof.
  intros H. destruct (is_rdn_items inext H) as (items & Hshape & Hitems & Hrdn).
  rewrite Hrdn, (dn2str_rdns_container inext items rest i dn st w Hshape).
  rewrite dn2str_avas_accepts by exact Hitems.
  cbn [live released taken blocks_from app].
  rewrite length_map, app_nil_r, <- app_assoc.
  destruct Hshape as [-> | ->]; reflexivity.
Qed.

Lemma dn2str_rdns_other (inext : PyObject) (rest : list PyObject)
      (i : nat) (dn : LDAPDN) (st : Marshalling) (w : World) :
  is_rdn inext = false ->
  exists st' w',
    dn2str_rdns L (inext :: rest) i dn st w
    = (inr (failed L st' (PyExc_TypeError type_error_message)), w')
    /\ released w' = released w
    /\ taken w' = S (taken w)
    /\ exists more, live w' = live w ++ more.
Proof.
  intros H.
  assert (Hinner : forall items, inext = PyList items \/ inext = PyTuple items ->
             forallb is_triple items = false ->
             exists st' w',
               dn2str_rdns L (inext :: rest) i dn st w
               = (inr (failed L st' (PyExc_TypeError type_error_message)), w')
               /\ released w' = released w
               /\ taken w' = S (taken w)
               /\ exists more, live w' = live w ++ more).
  { intros items Hc Hitems.
    rewrite (dn2str_rdns_container inext items rest i dn st w Hc).
    destruct (dn2str_avas_rejects i items Hitems 0 [] st
                {| live := live w ++ [RdnArray i]; released := released w;
                   taken := S (taken w) |})
      as (st' & w' & Hrun & Hrel & Htaken & more & Hlive).
    exists st', w'. rewrite Hrun. simpl in *. repeat split; try assumption.
    exists (RdnArray i :: more). rewrite Hlive, <- app_assoc. reflexivity. }
  destruct inext as [| z | s | s | items | items | items];
    try (rewrite dn2str_rdns_stray by reflexivity;
         eexists st, _; split; [reflexivity |]; simpl; repeat split;
         exists []; rewrite app_nil_r; reflexivity).
  - apply (Hinner items); [left; reflexivity | exact H].
  - apply (Hinner items); [right; reflexivity | exact H].
Qed.

(** The outer loop over lists and tuples of triples. *)
Lemma dn2str_rdns_accepts (items : list PyObject) :
  forallb is_rdn items = true ->
  forall (i : nat) (dn : LDAPDN) (st : Marshalling) (w : World),
    dn2str_rdns L items i dn st w
    = (inl (dn ++ map rdn_of_py items, marshal_rdns (memory L) i items st),
       {| live := live w ++ blocks_from i (map rdn_of_py items);
          released := released w;
          taken := taken w + List.length items |}).
Proof.
  induction items as [| inext rest IH]; intros H i dn st w.
  - simpl. rewrite !app_nil_r, Nat.add_0_r. destruct w; reflexivity.
  - simpl in H. apply andb_true_iff in H. destruct H as [Hnext Hrest].
    rewrite dn2str_rdns_rdn by exact Hnext.
    rewrite IH by exact Hrest. cbn [live released taken blocks_from map marshal_rdns].
    rewrite app_nil_r, <- !app_assoc. simpl.
    rewrite Nat.add_succ_r. reflexivity.
Qed.

(** The outer loop with an element of another shape: the call leaves for
    [failed:] with [iter] just past the first such element. *)
Lemma dn2str_rdns_rejects (items : list PyObject) :
  forallb is_rdn items = false ->
  forall (i : nat) (dn : LDAPDN) (st : Marshalling) (w : World),
  exists good bad rest st' w',
    items = good ++ bad :: rest
    /\ forallb is_rdn good = true
    /\ is_rdn bad = false
    /\ dn2str_rdns L items i dn st w
       = (inr (failed L st' (PyExc_TypeError type_error_message)), w')
    /\ released w' = released w
    /\ taken w' = (taken w + S (List.length good))%nat
    /\ exists more, live w' = live w ++ more.
Proof.
  induction items as [| inext rest IH]; intros H i dn st w.
  - discriminate H.
  - simpl in H. destruct (is_rdn inext) eqn:Hnext.
    + rewrite dn2str_rdns_rdn by exact Hnext.
      destruct (IH H (S i) (dn ++ [rdn_of_py inext]) (marshal_rdn (memory L) i inext st)
                  {| live := live w ++ blocks_from i [rdn_of_py inext];
                     released := released w; taken := S (taken w) |})
        as (good & bad & rest' & st' & w' & Hitems & Hgood & Hbad & Hrun & Hrel & Htaken
            & more & Hlive).
      exists (inext :: good), bad, rest', st', w'.
      simpl in Hrun, Htaken, Hlive, Hrel |- *. subst rest. rewrite Hnext, Hgood.
      split; [reflexivity |]. split; [reflexivity |]. split; [exact Hbad |].
      split; [exact Hrun |]. split; [exact Hrel |]. split; [lia |].
      eexists. rewrite Hlive, <- app_assoc. reflexivity.
    + destruct (dn2str_rdns_other inext rest i dn st w Hnext)
        as (st' & w' & Hrun & Hrel & Htaken & Hlive).
      exists [], inext, rest, st', w'. simpl. repeat split; try assumption.
      rewrite Htaken. lia.
Qed.

End Dn2str.

(** ** [l_ldap_dn2str]: the whole call *)

Section Dn2strCalls.

Variable L : Libldap.

(** A value of the checked shape passes both loops, and the call goes on
    to [ldap_dn2bv] with the records of its triples stored. *)
Lemma dn2str_accepted (o : PyObject) (flags : Z) (w : World) :
  fits_int flags = true ->
  dn_shape o = true ->
  l_ldap_dn2str L [o; PyLong flags] w
  = (dn2str_bv L (dn_of_py o) flags (marshalled L o),
     {| live := live w ++ DnArray :: blocks_from 0 (dn_of_py o);
        released := released w;
        taken := taken w + List.length (yielded (PyObject_GetIter o)) |}).
Proof.
  intros Hflags Hshape.
  unfold l_ldap_dn2str, bind, malloc, lift, parse_args_dn2str, arg_int.
  rewrite Hflags. unfold dn_shape in Hshape. unfold dn_of_py, marshalled.
  destruct (PyObject_GetIter o) as [items |]; [| discriminate].
  rewrite dn2str_rdns_accepts by exact Hshape.
  cbn [live released taken yielded app].
  rewrite <- app_assoc. reflexivity.
Qed.

(** A value of another shape makes the call leave for [failed:] with the
    [TypeError] set; the iterator over it has been advanced just past the
    first element that is not a list or tuple of triples. *)
Lemma dn2str_rejected (o : PyObject) (flags : Z) (w : World) :
  fits_int flags = true ->
  dn_shape o = false ->
  exists st w',
    l_ldap_dn2str L [o; PyLong flags] w
    = (inr (failed L st (PyExc_TypeError type_error_message)), w')
    /\ released w' = released w
    /\ (exists more, live w' = live w ++ DnArray :: more)
    /\ match PyObject_GetIter o with
       | None => taken w' = taken w
       | Some items =>
           exists good bad rest,
             items = good ++ bad :: rest
             /\ forallb is_rdn good = true
             /\ is_rdn bad = false
             /\ taken w' = (taken w + S (List.length good))%nat
       end.
Proof.
  intros Hflags Hshape.
  unfold l_ldap_dn2str, bind, malloc, lift, parse_args_dn2str, arg_int.
  rewrite Hflags. unfold dn_shape in Hshape.
  destruct (PyObject_GetIter o) as [items |].
  - destruct (dn2str_rdns_rejects L items Hshape 0 [] untouched
                {| live := live w ++ [DnArray]; released := released w;
                   taken := taken w |})
      as (good & bad & rest & st' & w' & Hitems & Hgood & Hbad & Hrun & Hrel & Htaken
          & more & Hlive).
    exists st', w'. rewrite Hrun. simpl in *.
    split; [reflexivity |]. split; [exact Hrel |]. split.
    + exists more. rewrite Hlive, <- app_assoc. reflexivity.
    + exists good, bad, rest. auto.
  - eexists untouched, _. split; [reflexivity |]. simpl.
    split; [reflexivity |]. split; [| reflexivity].
    exists []. reflexivity.
Qed.

Lemma parse_args_dn2str_inv (args : list PyObject) (o : PyObject) (flags : Z) :
  parse_args_dn2str args = inl (o, flags) ->
  args = [o; PyLong flags] /\ fits_int flags = true.
Proof.
  unfold parse_args_dn2str, arg_int.
  destruct args as [| a [| f [| x rest]]]; try discriminate.
  destruct f as [| z | s | s | items | items | items]; try discriminate.
  destruct (fits_int z) eqn:Hz; [| discriminate].
  intros H. injection H as -> ->. auto.
Qed.

(** On every exit the call has released nothing, and the array obtained
    for [dn] is among the live blocks. *)
Lemma dn2str_keeps_blocks (args : list PyObject) (w : World) :
  released (snd (l_ldap_dn2str L args w)) = released w
  /\ exists more, live (snd (l_ldap_dn2str L args w)) = live w ++ DnArray :: more.
Proof.
  destruct (parse_args_dn2str args) as [[o flags] | e] eqn:Hargs.
  - apply parse_args_dn2str_inv in Hargs. destruct Hargs as [-> Hflags].
    destruct (dn_shape o) eqn:Hshape.
    + rewrite dn2str_accepted by assumption. simpl. split; [reflexivity |].
      eexists. reflexivity.
    + destruct (dn2str_rejected o flags w Hflags Hshape)
        as (st & w' & Hrun & Hrel & Hlive & _).
      rewrite Hrun. simpl. auto.
  - unfold l_ldap_dn2str, bind, malloc, lift. rewrite Hargs. simpl.
    split; [reflexivity |]. exists []. reflexivity.
Qed.

(** The exit through [failed:] ends with the exception that was set, or
    with no defined outcome. *)
Lemma failed_cases (st : Marshalling) (e : PyErr) :
  failed L st e = e \/ exists h, failed L st e = Undefined h.
Proof.
  unfold failed. destruct (hazard st) as [h |]; [right; eexists; reflexivity |].
  destruct (tmp_null (memory L)); [left | right; eexists]; reflexivity.
Qed.

(** What follows the loops never ends with the [TypeError]. *)
Lemma dn2str_bv_no_type_error (dn : LDAPDN) (flags : Z) (st : Marshalling) (msg : string) :
  dn2str_bv L dn flags st <> inr (PyExc_TypeError msg).
Proof.
  unfold dn2str_bv. destruct (hazard st); [discriminate |].
  destruct (walk (memory L) 0 dn); [discriminate |].
  destruct (ldap_dn2bv L dn flags) as [res str].
  destruct (negb (res =? LDAP_SUCCESS L)); [discriminate |].
  destruct (indicator st); discriminate.
Qed.

(** A value comes back only from arrays that are ended, with no store
    past a block and no exception set, when the engine succeeds: the
    string read from its buffer. *)
Lemma dn2str_bv_returns (dn : LDAPDN) (flags : Z) (st : Marshalling) (result : PyObject) :
  dn2str_bv L dn flags st = inl result ->
  hazard st = None
  /\ walk (memory L) 0 dn = None
  /\ indicator st = None
  /\ dn2str_bv L dn flags st = serialised L dn flags.
Proof.
  unfold dn2str_bv, serialised. destruct (hazard st); [discriminate |].
  destruct (walk (memory L) 0 dn); [discriminate |].
  destruct (ldap_dn2bv L dn flags) as [res str].
  destruct (res =? LDAP_SUCCESS L); simpl; [| discriminate].
  destruct (indicator st); [discriminate |]. auto.
Qed.

(** Arrays of which one is not ended: no defined outcome. *)
Lemma dn2str_bv_unterminated (dn : LDAPDN) (flags : Z) (st : Marshalling) :
  walk (memory L) 0 dn <> None ->
  exists h, dn2str_bv L dn flags st = inr (Undefined h).
Proof.
  intros Hw. unfold dn2str_bv. destruct (hazard st) as [h |]; [eexists; reflexivity |].
  destruct (walk (memory L) 0 dn) as [h |]; [eexists; reflexivity | contradiction].
Qed.

End Dn2strCalls.

(** ** Shapes *)

Section Shapes.

Lemma skipn_past {A : Type} (good : list A) (rest : list A) :
  skipn (List.length good) (good ++ rest) = rest.
Proof.
  induction good as [| x good IH]; simpl; [reflexivity | exact IH].
Qed.

Lemma trim_triple_same (o : PyObject) :
  is_triple o = true ->
  is_triple (trim_triple o) = true /\ ava_of_py (trim_triple o) = ava_of_py o.
Proof.
  destruct o as [| z | s | s | items | items | items]; try discriminate;
    destruct items as [| a [| b [| c items]]]; try discriminate;
    destruct a; try discriminate; destruct b; try discriminate;
    destruct c; try discriminate; intros _; split; reflexivity.
Qed.

Lemma trim_triples_same (items : list PyObject) :
  forallb is_triple items = true ->
  forallb is_triple (map trim_triple items) = true
  /\ map ava_of_py (map trim_triple items) = map ava_of_py items.
Proof.
  induction items as [| o items IH]; simpl; intros H.
  - split; reflexivity.
  - apply andb_true_iff in H. destruct H as [Ho Hitems].
    destruct (trim_triple_same o Ho) as [Hshape Hava].
    destruct (IH Hitems) as [Hshapes Havas].
    rewrite Hshape, Hshapes, Hava, Havas. split; reflexivity.
Qed.

Lemma trim_rdn_same (o : PyObject) :
  is_rdn o = true ->
  is_rdn (trim_rdn o) = true /\ rdn_of_py (trim_rdn o) = rdn_of_py o.
Proof.
  destruct o as [| z | s | s | items | items | items]; try discriminate;
    intros H; apply trim_triples_same in H; exact H.
Qed.

Lemma trim_rdns_same (items : list PyObject) :
  forallb is_rdn items = true ->
  forallb is_rdn (map trim_rdn items) = true
  /\ map rdn_of_py (map trim_rdn items) = map rdn_of_py items.
Proof.
  induction items as [| o items IH]; simpl; intros H.
  - split; reflexivity.
  - apply andb_true_iff in H. destruct H as [Ho Hitems].
    destruct (trim_rdn_same o Ho) as [Hshape Hrdn].
    destruct (IH Hitems) as [Hshapes Hrdns].
    rewrite Hshape, Hshapes, Hrdn, Hrdns. split; reflexivity.
Qed.

(** Dropping what follows the third element of every triple changes
    neither the shape nor the records. *)
Lemma trim_dn_same (o : PyObject) :
  dn_shape o = true ->
  dn_shape (trim_dn o) = true /\ dn_of_py (trim_dn o) = dn_of_py o.
Proof.
  unfold dn_shape, dn_of_py.
  destruct o as [| z | s | s | items | items | items]; try discriminate;
    try (intros H; split; [exact H | reflexivity]);
    intros H; apply trim_rdns_same in H; exact H.
Qed.

(** The nested lists of a DN have the checked shape. *)
Lemma py_of_dn_shape (d : DN) : dn_shape (py_of_dn d) = true.
Proof.
  unfold dn_shape, py_of_dn. simpl.
  induction d as [| rdn d IH]; simpl; [reflexivity |].
  rewrite IH, andb_true_r.
  induction rdn as [| [[type value] flags] rdn IHrdn]; simpl; [reflexivity | exact IHrdn].
Qed.

(** A string handed over as the DN is refused unless it is empty: its
    characters are not lists or tuples. *)
Lemma bare_string_shape (s : string) :
  dn_shape (PyUnicode s) = match s with EmptyString => true | _ => false end.
Proof.
  destruct s; reflexivity.
Qed.

End Shapes.

(** ** The parser *)

(** C3 (flag hygiene of the parser output).  Whatever [l_ldap_str2dn]
    returns, for any text and any engine, is a list of lists of triples
    whose flags have neither [LDAP_AVA_FREE_ATTR] nor
    [LDAP_AVA_FREE_VALUE] set: the mask of [Py_BuildValue] clears both in
    every flag word the engine produced. *)
Theorem str2dn_flag_hygiene (L : Libldap) (args : list PyObject)
        (result : PyObject) (w : World) :
  unsigned_constants L ->
  run (l_ldap_str2dn L args) = (inl result, w) ->
  hygienic L result.
Proof.
  intros HL Hrun. unfold run in Hrun.
  destruct (str2dn_returns L args result initial_world w Hrun) as [dn ->].
  apply str2dn_hygienic, HL.
Qed.

Lemma engine_constants_unsigned : unsigned_constants Engine.libldap.
Proof.
  unfold unsigned_constants. simpl.
  unfold Engine.AVA_FREE_ATTR, Engine.AVA_FREE_VALUE. lia.
Defined.

(** The engine marks both buffers of [cn=x] as owned (flag word 49); the
    triple returned carries 1. *)
Lemma str2dn_flag_hygiene_witness :
  hygienic Engine.libldap
    (PyList [PyList [PyTuple [PyUnicode "cn"; PyUnicode "x"; PyLong 1]]]).
Proof.
  apply (str2dn_flag_hygiene Engine.libldap [PyUnicode "cn=x"] _
           {| live := []; released := [ParsedDn]; taken := 0 |}).
  - exact engine_constants_unsigned.
  - reflexivity.
Defined.

(** C10 (the flags argument).  [l_ldap_str2dn] called with the text alone
    runs exactly as with the text and 0, for every first argument; and
    [l_ldap_dn2str] called with the DN alone ends in the [TypeError] of
    [PyArg_ParseTuple], for every DN. *)
Theorem str2dn_flags_default (L : Libldap) (s d : PyObject) :
  run (l_ldap_str2dn L [s]) = run (l_ldap_str2dn L [s; PyLong 0])
  /\ fst (run (l_ldap_dn2str L [d])) = inr ArgTypeError.
Proof.
  split.
  - unfold run, l_ldap_str2dn, bind, lift, parse_args_str2dn.
    destruct (arg_buffer s) as [str | e]; reflexivity.
  - reflexivity.
Qed.

(** C5 (malformed input).  With the engine of the specification, a text
    without attribute type and a text that ends in a separator both end
    in the LDAP exception that carries the engine's code; and for every
    engine and every text it refuses, the call ends in the exception that
    carries the code the engine returned, with no value beside it. *)
Theorem str2dn_malformed :
  fst (run (l_ldap_str2dn Engine.libldap [PyUnicode "=noattr"; PyLong 0]))
  = inr (LDAPerr Engine.DECODING_ERROR)
  /\ fst (run (l_ldap_str2dn Engine.libldap [PyUnicode "a=b,"; PyLong 0]))
     = inr (LDAPerr Engine.DECODING_ERROR)
  /\ Engine.DECODING_ERROR <> Engine.SUCCESS
  /\ forall (L : Libldap) (args : list PyObject) (str : berval) (flags : Z),
       parse_args_str2dn args = inl (str, flags) ->
       fst (ldap_bv2dn L str flags) <> LDAP_SUCCESS L ->
       fst (run (l_ldap_str2dn L args)) = inr (LDAPerr (fst (ldap_bv2dn L str flags))).
Proof.
  split; [reflexivity |]. split; [reflexivity |]. split; [discriminate |].
  intros L args str flags Hargs Hres. unfold run.
  rewrite (str2dn_refused L args str flags initial_world Hargs Hres). reflexivity.
Qed.

(** C7 (multi-valued RDN).  With the engine of the specification,
    [a=b+c=d] with flags 0 is parsed to one RDN of the two AVAs
    [("a", "b", 1)] and [("c", "d", 1)], in that order; 1 is the flag word
    of a plain string. *)
Theorem str2dn_multi_valued_rdn :
  fst (run (l_ldap_str2dn Engine.libldap [PyUnicode "a=b+c=d"; PyLong 0]))
  = inl (py_of_dn [[("a", "b", Engine.AVA_STRING); ("c", "d", Engine.AVA_STRING)]]).
Proof.
  unfold run.
  (* the engine: one RDN of two AVAs, each flag word 1 with both ownership bits *)
  rewrite (str2dn_accepted Engine.libldap _ (buffer_of "a=b+c=d") 0
             [[ {| la_attr := Engine.berval_of ["a"%char];
                   la_value := Engine.berval_of ["b"%char]; la_flags := 49 |};
                {| la_attr := Engine.berval_of ["c"%char];
                   la_value := Engine.berval_of ["d"%char]; la_flags := 49 |} ]]
             initial_world); [| reflexivity | reflexivity].
  (* the wrapper: one list, two tuples, in order, flag words masked to 1 *)
  reflexivity.
Qed.

(** X3.  For every engine and every text it accepts, [l_ldap_str2dn]
    returns one list per RDN of the engine's DN, in order, holding one
    tuple per AVA, in order: the two buffers as strings and the flag word
    without the ownership bits. *)
Theorem str2dn_keeps_order (L : Libldap) (args : list PyObject) (str : berval)
        (flags : Z) (dn : LDAPDN) :
  parse_args_str2dn args = inl (str, flags) ->
  ldap_bv2dn L str flags = (LDAP_SUCCESS L, dn) ->
  fst (run (l_ldap_str2dn L args))
  = inl (PyList (map (fun rdn => PyList (map (ava_tuple L) rdn)) dn)).
Proof.
  intros Hargs Hdn. unfold run.
  rewrite (str2dn_accepted L args str flags dn initial_world Hargs Hdn). reflexivity.
Qed.

Lemma str2dn_keeps_order_witness :
  fst (run (l_ldap_str2dn Engine.libldap [PyUnicode Engine.sample_text]))
  = inl (PyList (map (fun rdn => PyList (map (ava_tuple Engine.libldap) rdn))
                   Engine.sample_parsed)).
Proof.
  apply (str2dn_keeps_order Engine.libldap [PyUnicode Engine.sample_text]
           (buffer_of Engine.sample_text) 0 Engine.sample_parsed).
  - reflexivity.
  - vm_compute. reflexivity.
Defined.

(** ** The builder *)

Lemma skipn_past_one {A : Type} (good : list A) (bad : A) (rest : list A) :
  skipn (S (List.length good)) (good ++ bad :: rest) = rest.
Proof.
  change (bad :: rest) with ([bad] ++ rest). rewrite app_assoc.
  replace (S (List.length good)) with (List.length (good ++ [bad]))
    by (rewrite length_app; simpl; lia).
  apply skipn_past.
Qed.

(** With a [tmp] that does not read as NULL, no exit through [failed:]
    has a defined outcome. *)
Lemma failed_unassigned (L : Libldap) (st : Marshalling) (e : PyErr) :
  tmp_null (memory L) = false -> exists h, failed L st e = Undefined h.
Proof.
  intros Htmp. unfold failed. rewrite Htmp.
  destruct (hazard st) as [h |]; eexists; reflexivity.
Qed.

(** An array that is ended is ended at each of its parts. *)
Lemma walk_rdn (mem : Memory) (pre : LDAPDN) (rdn : LDAPRDN) (post : LDAPDN) (i : nat) :
  walk mem i (pre ++ rdn :: post) = None ->
  terminator mem (RdnArray (i + List.length pre)) (List.length rdn) = None.
Proof.
  revert i. induction pre as [| r pre IH]; intros i; simpl.
  - rewrite Nat.add_0_r.
    destruct (terminator mem (RdnArray i) (List.length rdn)); [discriminate | reflexivity].
  - destruct (terminator mem (RdnArray i) (List.length r)); [discriminate |].
    intros H. apply IH in H. rewrite Nat.add_succ_r. exact H.
Qed.

Lemma walk_dn (mem : Memory) (dn : LDAPDN) (i : nat) :
  walk mem i dn = None -> terminator mem DnArray (i + List.length dn) = None.
Proof.
  revert i. induction dn as [| r dn IH]; intros i; simpl.
  - rewrite Nat.add_0_r. auto.
  - destruct (terminator mem (RdnArray i) (List.length r)); [discriminate |].
    intros H. apply IH in H. rewrite Nat.add_succ_r. exact H.
Qed.

(** A block with the room that was asked for ends no array that holds an
    entry. *)
Lemma terminator_without_slack (mem : Memory) (a : alloc) (n : nat) :
  slack mem a = 0%nat -> n <> 0%nat -> terminator mem a n <> None.
Proof.
  intros Hs Hn. unfold terminator. rewrite Hs.
  destruct n as [| n]; [contradiction | discriminate].
Qed.

(** C2, as stated, fails.  A one-shot iterator whose second element is an
    integer is of a refused shape, and after the call it has lost both of
    its elements. *)
Lemma dn2str_rejection_consumes_iterator :
  let o := PyIterator [PyList [PyTuple [PyUnicode "a"; PyUnicode "b"; PyLong 1]];
                       PyLong 5] in
  dn_shape o = false
  /\ fst (run (l_ldap_dn2str Engine.lenient [o; PyLong 0]))
     = inr (PyExc_TypeError type_error_message)
  /\ after_call o (snd (run (l_ldap_dn2str Engine.lenient [o; PyLong 0]))) = PyIterator []
  /\ after_call o (snd (run (l_ldap_dn2str Engine.lenient [o; PyLong 0]))) <> o.
Proof.
  split; [reflexivity |]. split; [reflexivity |]. split; [reflexivity | discriminate].
Qed.

(** C2 (shape validation), amended.  For a value that is not iterable, or
    one of whose elements is not a list or tuple, or one of whose
    innermost elements is not a list or tuple of at least three elements
    that begins with a string, a string and an integer, the call sets the
    [TypeError] whose message is the expected shape and leaves for
    [failed:] without a string: it ends with that [TypeError], or with no
    defined outcome, and with the latter whenever the [tmp] it hands to
    [Py_XDECREF] unassigned does not read as NULL.  For a value that is
    not iterable the outcome is the one or the other as [tmp] reads.  A
    one-shot iterator has been advanced just past its first element of a
    wrong shape. *)
Theorem dn2str_shape_rejection (L : Libldap) (o : PyObject) (flags : Z) :
  fits_int flags = true ->
  dn_shape o = false ->
  (fst (run (l_ldap_dn2str L [o; PyLong flags])) = inr (PyExc_TypeError type_error_message)
   \/ exists h, fst (run (l_ldap_dn2str L [o; PyLong flags])) = inr (Undefined h))
  /\ (tmp_null (memory L) = false ->
      exists h, fst (run (l_ldap_dn2str L [o; PyLong flags])) = inr (Undefined h))
  /\ (PyObject_GetIter o = None ->
      fst (run (l_ldap_dn2str L [o; PyLong flags]))
      = inr (if tmp_null (memory L) then PyExc_TypeError type_error_message
             else Undefined UnassignedTmp))
  /\ (forall pending, o = PyIterator pending ->
      exists good bad rest,
        pending = good ++ bad :: rest
        /\ forallb is_rdn good = true
        /\ is_rdn bad = false
        /\ after_call o (snd (run (l_ldap_dn2str L [o; PyLong flags]))) = PyIterator rest).
Proof.
  intros Hflags Hshape. unfold run.
  destruct (dn2str_rejected L o flags initial_world Hflags Hshape)
    as (st & w' & Hrun & _ & _ & Hiter).
  split; [| split; [| split]].
  - rewrite Hrun. simpl fst.
    destruct (failed_cases L st (PyExc_TypeError type_error_message)) as [-> | [h ->]];
      [left; reflexivity | right; exists h; reflexivity].
  - intros Htmp. rewrite Hrun. simpl fst.
    destruct (failed_unassigned L st (PyExc_TypeError type_error_message) Htmp) as [h ->].
    exists h. reflexivity.
  - intros Hnone.
    unfold l_ldap_dn2str, bind, malloc, lift, parse_args_dn2str, arg_int.
    rewrite Hflags, Hnone. unfold failed. simpl.
    destruct (tmp_null (memory L)); reflexivity.
  - rewrite Hrun. simpl snd. intros pending ->. simpl in Hiter.
    destruct Hiter as (good & bad & rest & -> & Hgood & Hbad & Htaken).
    exists good, bad, rest. repeat split; try assumption.
    unfold after_call. rewrite Htaken. cbn [taken initial_world Nat.add].
    rewrite skipn_past_one. reflexivity.
Qed.

(** The two rejections of the specification: a triple without flags,
    where [tmp] reads as NULL, and a bare string, where it does not. *)
Lemma dn2str_shape_rejection_witness :
  (fst (run (l_ldap_dn2str Engine.lenient
               [PyList [PyList [PyTuple [PyUnicode "a"; PyUnicode "b"]]]; PyLong 0]))
   = inr (PyExc_TypeError type_error_message)
   \/ exists h,
       fst (run (l_ldap_dn2str Engine.lenient
                   [PyList [PyList [PyTuple [PyUnicode "a"; PyUnicode "b"]]]; PyLong 0]))
       = inr (Undefined h))
  /\ exists h,
       fst (run (l_ldap_dn2str Engine.libldap [PyUnicode "not-a-sequence"; PyLong 0]))
       = inr (Undefined h).
Proof.
  split.
  - apply (proj1 (dn2str_shape_rejection Engine.lenient
                    (PyList [PyList [PyTuple [PyUnicode "a"; PyUnicode "b"]]]) 0
                    eq_refl eq_refl)).
  - apply (proj1 (proj2 (dn2str_shape_rejection Engine.libldap
                           (PyUnicode "not-a-sequence") 0 eq_refl eq_refl))).
    reflexivity.
Defined.

(** C6, as stated, fails.  A list whose one element is a one-shot iterator
    that yields a triple is of the loose shape, and the call sets the
    [TypeError] and leaves for [failed:]: an inner container must be a
    list or a tuple. *)
Lemma dn2str_refuses_inner_iterator :
  let o := PyList [PyIterator [PyTuple [PyUnicode "a"; PyUnicode "b"; PyLong 1]]] in
  loose_shape o = true
  /\ fst (run (l_ldap_dn2str Engine.lenient [o; PyLong 0]))
     = inr (PyExc_TypeError type_error_message)
  /\ fst (run (l_ldap_dn2str Engine.libldap [o; PyLong 0]))
     = inr (Undefined UnassignedTmp).
Proof.
  split; [reflexivity |]. split; reflexivity.
Qed.

(** Dropping what follows the third element of every triple changes
    nothing of what the loops make of their marshalling state. *)
Lemma trim_triple_marshal (mem : Memory) (i j : nat) (o : PyObject) (st : Marshalling) :
  is_triple o = true ->
  marshal_ava mem i j (trim_triple o) st = marshal_ava mem i j o st.
Proof.
  destruct o as [| z | s | s | items | items | items]; try discriminate;
    destruct items as [| a [| b [| c items]]]; try discriminate; reflexivity.
Qed.

Lemma trim_triples_marshal (mem : Memory) (i : nat) (items : list PyObject) :
  forallb is_triple items = true ->
  forall (j : nat) (st : Marshalling),
    marshal_avas mem i j (map trim_triple items) st = marshal_avas mem i j items st.
Proof.
  induction items as [| o items IH]; simpl; intros H j st; [reflexivity |].
  apply andb_true_iff in H. destruct H as [Ho Hitems].
  rewrite (trim_triple_marshal mem i j o st Ho). apply IH. exact Hitems.
Qed.

Lemma trim_rdn_marshal (mem : Memory) (i : nat) (o : PyObject) (st : Marshalling) :
  is_rdn o = true ->
  marshal_rdn mem i (trim_rdn o) st = marshal_rdn mem i o st.
Proof.
  unfold marshal_rdn.
  destruct o as [| z | s | s | items | items | items]; try discriminate;
    intros H; cbn [trim_rdn PyObject_GetIter yielded];
    rewrite (trim_triples_marshal mem i items H); reflexivity.
Qed.

Lemma trim_rdns_marshal (mem : Memory) (items : list PyObject) :
  forallb is_rdn items = true ->
  forall (i : nat) (st : Marshalling),
    marshal_rdns mem i (map trim_rdn items) st = marshal_rdns mem i items st.
Proof.
  induction items as [| o items IH]; simpl; intros H i st; [reflexivity |].
  apply andb_true_iff in H. destruct H as [Ho Hitems].
  rewrite (trim_rdn_marshal mem i o st Ho). apply IH. exact Hitems.
Qed.

Lemma trim_dn_marshalled (L : Libldap) (o : PyObject) :
  dn_shape o = true -> marshalled L (trim_dn o) = marshalled L o.
Proof.
  unfold dn_shape, marshalled.
  destruct o as [| z | s | s | items | items | items]; try discriminate;
    try reflexivity;
    intros H; cbn [trim_dn PyObject_GetIter yielded]; apply trim_rdns_marshal; exact H.
Qed.

(** C6 (builder input looseness), amended.  The outer container may be any
    iterable; every element of it must be a list or a tuple, and so must
    every triple, which has at least three elements and begins with a
    string, a string and an integer.  Such a value passes every check: the
    call goes on to [ldap_dn2bv] with the records of its triples stored,
    and never ends with the [TypeError]; the elements past the third of a
    triple make no difference to how it ends. *)
Theorem dn2str_accepts_long_triples (L : Libldap) (o : PyObject) (flags : Z) :
  fits_int flags = true ->
  dn_shape o = true ->
  fst (run (l_ldap_dn2str L [o; PyLong flags]))
  = dn2str_bv L (dn_of_py o) flags (marshalled L o)
  /\ (forall msg, fst (run (l_ldap_dn2str L [o; PyLong flags])) <> inr (PyExc_TypeError msg))
  /\ fst (run (l_ldap_dn2str L [trim_dn o; PyLong flags]))
     = fst (run (l_ldap_dn2str L [o; PyLong flags])).
Proof.
  intros Hflags Hshape. unfold run.
  destruct (trim_dn_same o Hshape) as [Hshape' Hsame].
  rewrite !dn2str_accepted by assumption. simpl fst.
  split; [reflexivity |]. split.
  - intros msg. apply dn2str_bv_no_type_error.
  - rewrite Hsame, (trim_dn_marshalled L o Hshape). reflexivity.
Qed.

Lemma dn2str_accepts_long_triples_witness :
  let o := PyTuple [PyList [PyList [PyUnicode "cn"; PyUnicode "a,b"; PyLong 1; PyNone];
                            PyTuple [PyUnicode "sn"; PyUnicode "c"; PyLong 1]];
                    PyTuple [PyTuple [PyUnicode "dc"; PyUnicode "AB"; PyLong 2; PyLong 7]]] in
  fst (run (l_ldap_dn2str Engine.lenient [o; PyLong 0]))
  = dn2str_bv Engine.lenient (dn_of_py o) 0 (marshalled Engine.lenient o)
  /\ (forall msg, fst (run (l_ldap_dn2str Engine.lenient [o; PyLong 0]))
                  <> inr (PyExc_TypeError msg))
  /\ fst (run (l_ldap_dn2str Engine.lenient [trim_dn o; PyLong 0]))
     = fst (run (l_ldap_dn2str Engine.lenient [o; PyLong 0])).
Proof.
  apply (dn2str_accepts_long_triples Engine.lenient); reflexivity.
Defined.

(** C9 (empty RDN).  An empty tuple or an empty list among lists and
    tuples of triples passes the checks: the call never ends with the
    [TypeError].  A block is obtained for it and nothing is stored there,
    so that, unless its first slot happens to read as NULL, an array that
    is not ended goes to [ldap_dn2bv]. *)
Theorem dn2str_accepts_empty_rdn (L : Libldap) (before after : list PyObject)
        (e : PyObject) (flags : Z) :
  fits_int flags = true ->
  e = PyTuple [] \/ e = PyList [] ->
  forallb is_rdn before = true ->
  forallb is_rdn after = true ->
  (forall msg,
      fst (run (l_ldap_dn2str L [PyList (before ++ e :: after); PyLong flags]))
      <> inr (PyExc_TypeError msg))
  /\ live (snd (run (l_ldap_dn2str L [PyList (before ++ e :: after); PyLong flags])))
     = DnArray :: blocks_from 0 (map rdn_of_py before ++ [] :: map rdn_of_py after)
  /\ (reads_null (memory L) (RdnArray (List.length before)) 0 = false ->
      exists h,
        fst (run (l_ldap_dn2str L [PyList (before ++ e :: after); PyLong flags]))
        = inr (Undefined h)).
Proof.
  intros Hflags He Hbefore Hafter.
  assert (Hshape : dn_shape (PyList (before ++ e :: after)) = true).
  { unfold dn_shape. simpl. rewrite forallb_app. simpl.
    rewrite Hbefore, Hafter. destruct He as [-> | ->]; reflexivity. }
  assert (Hdn : dn_of_py (PyList (before ++ e :: after))
                = map rdn_of_py before ++ [] :: map rdn_of_py after).
  { unfold dn_of_py. simpl. rewrite map_app. simpl.
    destruct He as [-> | ->]; reflexivity. }
  unfold run. rewrite dn2str_accepted by assumption. simpl fst. simpl snd.
  rewrite Hdn. split; [| split].
  - intros msg. apply dn2str_bv_no_type_error.
  - reflexivity.
  - intros Hnull. apply dn2str_bv_unterminated. intros Hwalk.
    apply walk_rdn in Hwalk. rewrite length_map in Hwalk. simpl in Hwalk.
    unfold terminator in Hwalk. rewrite Hnull, andb_false_r in Hwalk.
    discriminate Hwalk.
Qed.

Lemma dn2str_accepts_empty_rdn_witness :
  (forall msg,
      fst (run (l_ldap_dn2str Engine.libldap
                  [PyList ([PyList [PyTuple [PyUnicode "a"; PyUnicode "b"; PyLong 1]]]
                           ++ PyTuple [] :: []); PyLong 0]))
      <> inr (PyExc_TypeError msg))
  /\ live (snd (run (l_ldap_dn2str Engine.libldap
                       [PyList ([PyList [PyTuple [PyUnicode "a"; PyUnicode "b"; PyLong 1]]]
                                ++ PyTuple [] :: []); PyLong 0])))
     = DnArray
         :: blocks_from 0
              (map rdn_of_py [PyList [PyTuple [PyUnicode "a"; PyUnicode "b"; PyLong 1]]]
               ++ [] :: map rdn_of_py [])
  /\ (reads_null (memory Engine.libldap)
        (RdnArray (List.length [PyList [PyTuple [PyUnicode "a"; PyUnicode "b"; PyLong 1]]]))
        0 = false ->
      exists h,
        fst (run (l_ldap_dn2str Engine.libldap
                    [PyList ([PyList [PyTuple [PyUnicode "a"; PyUnicode "b"; PyLong 1]]]
                             ++ PyTuple [] :: []); PyLong 0]))
        = inr (Undefined h)).
Proof.
  apply (dn2str_accepts_empty_rdn Engine.libldap
           [PyList [PyTuple [PyUnicode "a"; PyUnicode "b"; PyLong 1]]] []
           (PyTuple []) 0).
  - reflexivity.
  - left. reflexivity.
  - reflexivity.
  - reflexivity.
Defined.

(** C8 (resource discipline), on the code.  On every exit of
    [l_ldap_dn2str], whatever the arguments and the engine, nothing has
    been released and the array obtained for [dn] is still held; for one
    RDN of one AVA the call ends holding the array, the RDN's array and the
    AVA's record. *)
Theorem dn2str_releases_nothing (L : Libldap) :
  (forall args : list PyObject,
      released (snd (run (l_ldap_dn2str L args))) = []
      /\ In DnArray (live (snd (run (l_ldap_dn2str L args)))))
  /\ snd (run (l_ldap_dn2str L
                 [PyList [PyList [PyTuple [PyUnicode "a"; PyUnicode "b"; PyLong 1]]];
                  PyLong 0]))
     = {| live := [DnArray; RdnArray 0; AvaRecord 0 0]; released := []; taken := 1 |}.
Proof.
  split.
  - intros args. unfold run.
    destruct (dn2str_keeps_blocks L args initial_world) as [Hrel [more Hlive]].
    rewrite Hrel, Hlive. simpl. auto.
  - unfold run. rewrite dn2str_accepted by reflexivity. reflexivity.
Qed.

(** C4 (empty DN), on the code.  For the empty list the loop stores
    nothing into the block obtained for [dn], and [ldap_dn2bv] is handed
    that block: the call ends as the engine decides for the DN without
    RDN only where the slot never written happens to read as NULL, and
    has no defined outcome otherwise. *)
Theorem empty_dn_unterminated (L : Libldap) :
  fst (run (l_ldap_dn2str L [PyList []; PyLong 0]))
  = if reads_null (memory L) DnArray 0 then serialised L [] 0
    else inr (Undefined (Unterminated DnArray 0)).
Proof.
  unfold run. rewrite dn2str_accepted by reflexivity. simpl fst.
  unfold dn2str_bv, serialised, marshalled, dn_of_py. simpl.
  unfold terminator. simpl.
  destruct (reads_null (memory L) DnArray 0); [| reflexivity].
  destruct (ldap_dn2bv L [] 0) as [res str].
  destruct (res =? LDAP_SUCCESS L); reflexivity.
Qed.

(** X1.  [l_ldap_str2dn], next to it, ends every call holding nothing:
    the DN the engine made is released once on the exit that returns the
    lists, and on the exits that raise there was none and none is
    released. *)
Theorem str2dn_releases_parsed_dn (L : Libldap) (args : list PyObject) :
  live (snd (run (l_ldap_str2dn L args))) = []
  /\ released (snd (run (l_ldap_str2dn L args)))
     = match fst (run (l_ldap_str2dn L args)) with
       | inl _ => [ParsedDn]
       | inr _ => []
       end.
Proof.
  unfold run, l_ldap_str2dn, bind, lift.
  destruct (parse_args_str2dn args) as [[str flags] | e]; [| simpl; auto].
  destruct (ldap_bv2dn L str flags) as [res dn].
  destruct (res =? LDAP_SUCCESS L); simpl; [| auto].
  destruct (str2dn_rdns L dn [] []) as [tmp st]. simpl. auto.
Qed.

(** ** Round trip *)

Lemma dn_of_py_of_dn_length (d : DN) :
  List.length (dn_of_py (py_of_dn d)) = List.length d.
Proof.
  unfold dn_of_py, py_of_dn. cbn [PyObject_GetIter yielded].
  rewrite !length_map. reflexivity.
Qed.

(** A store past a block, and an array that is not ended, leave the call
    without a defined outcome. *)
Lemma dn2str_bv_stored_past (L : Libldap) (dn : LDAPDN) (flags : Z) (st : Marshalling)
      (h : Hazard) :
  hazard st = Some h -> dn2str_bv L dn flags st = inr (Undefined h).
Proof.
  intros H. unfold dn2str_bv. rewrite H. reflexivity.
Qed.

Lemma dn2str_bv_not_ended (L : Libldap) (dn : LDAPDN) (flags : Z) (st : Marshalling)
      (h : Hazard) :
  hazard st = None -> walk (memory L) 0 dn = Some h ->
  dn2str_bv L dn flags st = inr (Undefined h).
Proof.
  intros Hst Hw. unfold dn2str_bv. rewrite Hst, Hw. reflexivity.
Qed.

(** Where every block has the room that was asked for: the second RDN
    is stored past the block of [dn], the second AVA past the block of its
    RDN, and the arrays of one RDN of one AVA are not ended. *)
Lemma second_rdn_past_block (L : Libldap) :
  (forall a, slack (memory L) a = 0%nat) ->
  hazard (marshalled L (py_of_dn [[("cn", "John Doe", 1)]; [("dc", "example", 1)];
                                  [("dc", "com", 1)]]))
  = Some (StorePastBlock DnArray 1).
Proof.
  intros Hslack. destruct L as [s fa fv b2 d2 [sl rn tn]]. cbn [memory slack] in Hslack.
  cbv. rewrite !Hslack. reflexivity.
Qed.

Lemma second_ava_past_block (L : Libldap) :
  (forall a, slack (memory L) a = 0%nat) ->
  hazard (marshalled L (py_of_dn [[("a", "b", 1); ("c", "d", 1)]]))
  = Some (StorePastBlock (RdnArray 0) 1).
Proof.
  intros Hslack. destruct L as [s fa fv b2 d2 [sl rn tn]]. cbn [memory slack] in Hslack.
  cbv. rewrite !Hslack. reflexivity.
Qed.

Lemma one_ava_not_ended (L : Libldap) :
  (forall a, slack (memory L) a = 0%nat) ->
  hazard (marshalled L (py_of_dn [[("a", "b", 1)]])) = None
  /\ walk (memory L) 0 (dn_of_py (py_of_dn [[("a", "b", 1)]]))
     = Some (Unterminated (RdnArray 0) 1).
Proof.
  intros Hslack. destruct L as [s fa fv b2 d2 [sl rn tn]]. cbn [memory slack] in Hslack.
  cbv. rewrite !Hslack. split; reflexivity.
Qed.

(** C1 (round trip), on the code.  Where every block has the room that
    was asked for, one pointer, [l_ldap_dn2str] has no defined outcome on
    the nested lists of any DN that holds an RDN, and no text comes back
    for [l_ldap_str2dn] to parse: with a second RDN the call stores past
    the block of [dn], with a second AVA past the block of the RDN, and
    with one RDN of one AVA it hands [ldap_dn2bv] arrays that are not
    ended. *)
Theorem round_trip_unterminated (L : Libldap) (d : DN) (f : Z) :
  fits_int f = true ->
  d <> [] ->
  (forall a, slack (memory L) a = 0%nat) ->
  (exists h,
      fst (run (l_ldap_dn2str L [py_of_dn d; PyLong f])) = inr (Undefined h)
      /\ fst (run (round_trip L d f)) = inr (Undefined h))
  /\ fst (run (round_trip L [[("cn", "John Doe", 1)]; [("dc", "example", 1)];
                             [("dc", "com", 1)]] f))
     = inr (Undefined (StorePastBlock DnArray 1))
  /\ fst (run (round_trip L [[("a", "b", 1); ("c", "d", 1)]] f))
     = inr (Undefined (StorePastBlock (RdnArray 0) 1))
  /\ fst (run (round_trip L [[("a", "b", 1)]] f))
     = inr (Undefined (Unterminated (RdnArray 0) 1)).
Proof.
  intros Hf Hd Hslack.
  assert (Hwalk : walk (memory L) 0 (dn_of_py (py_of_dn d)) <> None).
  { intros H. apply walk_dn in H. revert H.
    apply terminator_without_slack; [apply Hslack |].
    rewrite dn_of_py_of_dn_length. destruct d; [contradiction | discriminate]. }
  destruct (dn2str_bv_unterminated L (dn_of_py (py_of_dn d)) f
              (marshalled L (py_of_dn d)) Hwalk) as [h Hh].
  destruct (one_ava_not_ended L Hslack) as [Hone Hone'].
  unfold run, round_trip, bind.
  rewrite !(dn2str_accepted L (py_of_dn _) f initial_world Hf (py_of_dn_shape _)).
  rewrite Hh.
  rewrite (dn2str_bv_stored_past L _ f _ _ (second_rdn_past_block L Hslack)).
  rewrite (dn2str_bv_stored_past L _ f _ _ (second_ava_past_block L Hslack)).
  rewrite (dn2str_bv_not_ended L _ f _ _ Hone Hone').
  split; [exists h; split; reflexivity |]. repeat split; reflexivity.
Qed.

(** Three RDNs of one AVA each, in the memory C promises. *)
Lemma round_trip_unterminated_witness :
  (exists h,
      fst (run (l_ldap_dn2str Engine.libldap
                  [py_of_dn [[("cn", "John Doe", 1)]; [("dc", "example", 1)];
                             [("dc", "com", 1)]]; PyLong 0]))
      = inr (Undefined h)
      /\ fst (run (round_trip Engine.libldap
                     [[("cn", "John Doe", 1)]; [("dc", "example", 1)];
                      [("dc", "com", 1)]] 0))
         = inr (Undefined h))
  /\ fst (run (round_trip Engine.libldap
                 [[("cn", "John Doe", 1)]; [("dc", "example", 1)]; [("dc", "com", 1)]] 0))
     = inr (Undefined (StorePastBlock DnArray 1))
  /\ fst (run (round_trip Engine.libldap [[("a", "b", 1); ("c", "d", 1)]] 0))
     = inr (Undefined (StorePastBlock (RdnArray 0) 1))
  /\ fst (run (round_trip Engine.libldap [[("a", "b", 1)]] 0))
     = inr (Undefined (Unterminated (RdnArray 0) 1)).
Proof.
  apply (round_trip_unterminated Engine.libldap
           [[("cn", "John Doe", 1)]; [("dc", "example", 1)]; [("dc", "com", 1)]] 0).
  - reflexivity.
  - discriminate.
  - intros a. reflexivity.
Defined.

(** ** More of [l_ldap_dn2str] *)

Section Dn2strMore.

Variable L : Libldap.

(** The inner loop does not tell apart two triples with the same shape,
    the same record and the same flags. *)
Lemma dn2str_avas_alike (g : PyObject -> PyObject) :
  (forall x, is_triple (g x) = is_triple x) ->
  (forall x, is_triple x = true -> ava_of_py (g x) = ava_of_py x) ->
  (forall x i j st, marshal_ava (memory L) i j (g x) st = marshal_ava (memory L) i j x st) ->
  forall (i : nat) (items : list PyObject) (j : nat) (rdn : LDAPRDN)
         (st : Marshalling) (w : World),
    dn2str_avas L i (map g items) j rdn st w = dn2str_avas L i items j rdn st w.
Proof.
  intros Hshape Hava Hst i items. induction items as [| x items IH]; intros j rdn st w.
  - reflexivity.
  - simpl map. destruct (is_triple x) eqn:Hx.
    + rewrite (dn2str_avas_triple L i (g x)) by (rewrite Hshape; exact Hx).
      rewrite (dn2str_avas_triple L i x) by exact Hx.
      rewrite (Hava x Hx), Hst. apply IH.
    + rewrite (dn2str_avas_other L i (g x)) by (rewrite Hshape; exact Hx).
      rewrite (dn2str_avas_other L i x) by exact Hx. reflexivity.
Qed.

(** The outer loop does not tell apart two elements that are both lists or
    tuples of triples alike, in order. *)
Lemma dn2str_rdns_alike (g h : PyObject -> PyObject) :
  (forall x, is_triple (g x) = is_triple x) ->
  (forall x, is_triple x = true -> ava_of_py (g x) = ava_of_py x) ->
  (forall x i j st, marshal_ava (memory L) i j (g x) st = marshal_ava (memory L) i j x st) ->
  (forall x, match x with
             | PyList items | PyTuple items =>
                 h x = PyList (map g items) \/ h x = PyTuple (map g items)
             | _ => h x = x
             end) ->
  forall (items : list PyObject) (i : nat) (dn : LDAPDN) (st : Marshalling) (w : World),
    dn2str_rdns L (map h items) i dn st w = dn2str_rdns L items i dn st w.
Proof.
  intros Hshape Hava Hst Hh items.
  induction items as [| x items IH]; intros i dn st w.
  - reflexivity.
  - simpl map. pose proof (Hh x) as Hx.
    assert (Hcont : forall l, x = PyList l \/ x = PyTuple l ->
                    h x = PyList (map g l) \/ h x = PyTuple (map g l) ->
                    dn2str_rdns L (h x :: map h items) i dn st w
                    = dn2str_rdns L (x :: items) i dn st w).
    { intros l Hxl Hhl.
      rewrite (dn2str_rdns_container L (h x) (map g l) _ i dn st w Hhl).
      rewrite (dn2str_rdns_container L x l _ i dn st w Hxl).
      rewrite (dn2str_avas_alike g Hshape Hava Hst).
      destruct (dn2str_avas L i l 0 [] st _) as [[[rdn st'] | e] w'];
        [apply IH | reflexivity]. }
    destruct x as [| z | s | s | l | l | l];
      try (rewrite Hx; rewrite !dn2str_rdns_stray by reflexivity; reflexivity).
    + apply (Hcont l); [left; reflexivity | exact Hx].
    + apply (Hcont l); [right; reflexivity | exact Hx].
Qed.

(** The call does not tell apart two values that yield such elements. *)
Lemma dn2str_alike (g h k : PyObject -> PyObject) :
  (forall x, is_triple (g x) = is_triple x) ->
  (forall x, is_triple x = true -> ava_of_py (g x) = ava_of_py x) ->
  (forall x i j st, marshal_ava (memory L) i j (g x) st = marshal_ava (memory L) i j x st) ->
  (forall x, match x with
             | PyList items | PyTuple items =>
                 h x = PyList (map g items) \/ h x = PyTuple (map g items)
             | _ => h x = x
             end) ->
  (forall o, match PyObject_GetIter o with
             | Some items =>
                 PyObject_GetIter (k o) = Some (map h items)
                 \/ PyObject_GetIter (k o) = Some items
             | None => PyObject_GetIter (k o) = None
             end) ->
  forall (o f : PyObject) (w : World),
    l_ldap_dn2str L [k o; f] w = l_ldap_dn2str L [o; f] w.
Proof.
  intros Hshape Hava Hst Hh Hk o f w.
  unfold l_ldap_dn2str, bind, malloc, lift, parse_args_dn2str.
  destruct (arg_int f) as [flags | e]; [| reflexivity].
  pose proof (Hk o) as Ho.
  destruct (PyObject_GetIter o) as [items |].
  - destruct Ho as [-> | ->]; [| reflexivity].
    rewrite (dn2str_rdns_alike g h Hshape Hava Hst Hh). reflexivity.
  - rewrite Ho. reflexivity.
Qed.

(** The call looks at nothing behind the first element that is not a list
    or tuple of triples. *)
Lemma dn2str_stops (good : list PyObject) (bad : PyObject) (rest rest' : list PyObject)
      (f : PyObject) (w : World) :
  is_rdn bad = false ->
  l_ldap_dn2str L [PyList (good ++ bad :: rest); f] w
  = l_ldap_dn2str L [PyList (good ++ bad :: rest'); f] w.
Proof.
  intros Hbad.
  assert (Hloop : forall i dn st w0,
             dn2str_rdns L (good ++ bad :: rest) i dn st w0
             = dn2str_rdns L (good ++ bad :: rest') i dn st w0).
  { induction good as [| x good IH]; intros i dn st w0.
    - simpl app.
      destruct bad as [| z | s | s | l | l | l];
        try (rewrite !dn2str_rdns_stray by reflexivity; reflexivity).
      + rewrite !(dn2str_rdns_container L (PyList l) l) by (left; reflexivity).
        destruct (dn2str_avas_rejects L i l Hbad 0%nat [] st
                    {| live := live w0 ++ [RdnArray i]; released := released w0;
                       taken := S (taken w0) |}) as (st' & w' & -> & _).
        reflexivity.
      + rewrite !(dn2str_rdns_container L (PyTuple l) l) by (right; reflexivity).
        destruct (dn2str_avas_rejects L i l Hbad 0%nat [] st
                    {| live := live w0 ++ [RdnArray i]; released := released w0;
                       taken := S (taken w0) |}) as (st' & w' & -> & _).
        reflexivity.
    - simpl app.
      destruct x as [| z | s | s | l | l | l];
        try (rewrite !dn2str_rdns_stray by reflexivity; reflexivity).
      + rewrite !(dn2str_rdns_container L (PyList l) l) by (left; reflexivity).
        destruct (dn2str_avas L i l 0 [] st _) as [[[rdn st'] | e] w'];
          [apply IH | reflexivity].
      + rewrite !(dn2str_rdns_container L (PyTuple l) l) by (right; reflexivity).
        destruct (dn2str_avas L i l 0 [] st _) as [[[rdn st'] | e] w'];
          [apply IH | reflexivity]. }
  unfold l_ldap_dn2str, bind, malloc, lift, parse_args_dn2str.
  destruct (arg_int f) as [flags | e]; [| reflexivity].
  cbn [PyObject_GetIter]. rewrite (Hloop 0%nat [] untouched _). reflexivity.
Qed.

(** A store leaves the error indicator as it is. *)
Lemma store_indicator (a : alloc) (index : nat) (st : Marshalling) :
  indicator (store (memory L) a index st) = indicator st.
Proof.
  unfold store. destruct (hazard st); [reflexivity |].
  destruct (index <=? slack (memory L) a)%nat; reflexivity.
Qed.

(** The error indicator behind the loops: [OverflowError] when the flags
    of a triple were beyond a [long], and what it was before otherwise. *)
Lemma marshal_ava_indicator (i j : nat) (o : PyObject) (st : Marshalling) :
  is_triple o = true ->
  indicator (marshal_ava (memory L) i j o st)
  = if flags_overflow o then Some PyExc_OverflowError else indicator st.
Proof.
  intros H. unfold marshal_ava, flags_overflow. rewrite store_indicator.
  destruct o as [| z | s | s | items | items | items]; try discriminate;
    destruct items as [| a [| b [| c items]]]; try discriminate;
    destruct a; try discriminate; destruct b; try discriminate;
    destruct c; try discriminate;
    cbn [PyList_AsTuple PyTuple_GetItem nth PyLong_AsLong];
    destruct (fits_long z); reflexivity.
Qed.

Lemma marshal_avas_indicator (i : nat) (items : list PyObject) :
  forallb is_triple items = true ->
  forall (j : nat) (st : Marshalling),
    indicator (marshal_avas (memory L) i j items st)
    = if existsb flags_overflow items then Some PyExc_OverflowError else indicator st.
Proof.
  induction items as [| o items IH]; simpl; intros H j st; [reflexivity |].
  apply andb_true_iff in H. destruct H as [Ho Hitems].
  rewrite (IH Hitems), (marshal_ava_indicator i j o st Ho).
  destruct (flags_overflow o); simpl; destruct (existsb flags_overflow items); reflexivity.
Qed.

Lemma marshal_rdns_indicator (items : list PyObject) :
  forallb is_rdn items = true ->
  forall (i : nat) (st : Marshalling),
    indicator (marshal_rdns (memory L) i items st)
    = if existsb (fun rdn => existsb flags_overflow (yielded (PyObject_GetIter rdn))) items
      then Some PyExc_OverflowError else indicator st.
Proof.
  induction items as [| o items IH]; simpl; intros H i st; [reflexivity |].
  apply andb_true_iff in H. destruct H as [Ho Hitems].
  rewrite (IH Hitems). unfold marshal_rdn. rewrite store_indicator.
  destruct (is_rdn_items o Ho) as (l & Hshape & Hl & _).
  assert (Hy : yielded (PyObject_GetIter o) = l)
    by (destruct Hshape as [-> | ->]; reflexivity).
  rewrite Hy, (marshal_avas_indicator i l Hl).
  destruct (existsb flags_overflow l); simpl;
    destruct (existsb _ items); reflexivity.
Qed.

Lemma marshalled_indicator (o : PyObject) :
  dn_shape o = true ->
  indicator (marshalled L o) = if overflows o then Some PyExc_OverflowError else None.
Proof.
  unfold dn_shape, marshalled, overflows.
  destruct (PyObject_GetIter o) as [items |]; [| discriminate].
  intros H. rewrite (marshal_rdns_indicator items H). reflexivity.
Qed.

End Dn2strMore.

Lemma as_tuple_triple (x : PyObject) : is_triple (PyList_AsTuple x) = is_triple x.
Proof.
  destruct x; reflexivity.
Qed.

Lemma as_tuple_record (x : PyObject) : ava_of_py (PyList_AsTuple x) = ava_of_py x.
Proof.
  destruct x; reflexivity.
Qed.

Lemma as_tuple_marshal (mem : Memory) (x : PyObject) (i j : nat) (st : Marshalling) :
  marshal_ava mem i j (PyList_AsTuple x) st = marshal_ava mem i j x st.
Proof.
  destruct x; reflexivity.
Qed.

(** X4.  [l_ldap_dn2str] treats lists and tuples alike at every level: the
    call on a value and the call on the same elements held in tuples hold
    the same blocks and have drawn as many elements, and where one of
    them has a defined outcome, a result or an exception, the other has
    the same, whatever the value and the flags argument. *)
Theorem dn2str_lists_as_tuples (L : Libldap) (o f : PyObject) :
  snd (run (l_ldap_dn2str L [dn_as_tuples o; f])) = snd (run (l_ldap_dn2str L [o; f]))
  /\ forall r : PyObject + PyErr,
       (forall h, r <> inr (Undefined h)) ->
       (fst (run (l_ldap_dn2str L [dn_as_tuples o; f])) = r
        <-> fst (run (l_ldap_dn2str L [o; f])) = r).
Proof.
  assert (H : run (l_ldap_dn2str L [dn_as_tuples o; f]) = run (l_ldap_dn2str L [o; f])).
  { unfold run.
    apply (dn2str_alike L PyList_AsTuple rdn_as_tuple dn_as_tuples).
    - exact as_tuple_triple.
    - intros x _. apply as_tuple_record.
    - intros x i j st. apply as_tuple_marshal.
    - intros x. destruct x; try reflexivity; right; reflexivity.
    - intros x. destruct x; simpl; auto. }
  rewrite H. split; [reflexivity |]. intros r _. reflexivity.
Qed.

Lemma to_uint32_of_int32 (x : Z) : to_uint32 (to_int32 x) = to_uint32 x.
Proof.
  unfold to_uint32, to_int32. cbv zeta.
  destruct (x mod 2 ^ 32 <? 2 ^ 31).
  - apply Z.mod_mod. lia.
  - replace (x mod 2 ^ 32 - 2 ^ 32) with (x mod 2 ^ 32 + (-1) * 2 ^ 32) by ring.
    rewrite Z.mod_add by lia. apply Z.mod_mod. lia.
Qed.

(** X5.  The flags of an AVA are not range-checked.  An integer within a C
    [long] is stored modulo 2^32 and sets no exception.  An integer beyond
    it is stored as 2^32 - 1, and the [OverflowError] that [PyLong_AsLong]
    sets is not looked at: a value of the accepted shape that holds such
    flags is not refused, and no string comes back for it; where the
    arrays are ended and the engine succeeds, the call ends in the
    [SystemError] of a result returned with an exception set. *)
Theorem dn2str_ava_flags_unchecked (L : Libldap) :
  (forall z, fits_long z = true ->
             stored_flags z = z mod 2 ^ 32 /\ snd (PyLong_AsLong (PyLong z)) = None)
  /\ (forall z, fits_long z = false ->
                stored_flags z = 2 ^ 32 - 1
                /\ snd (PyLong_AsLong (PyLong z)) = Some PyExc_OverflowError)
  /\ (forall type value z, la_flags (dn2str_ava type value (PyLong z)) = stored_flags z)
  /\ forall (o : PyObject) (flags : Z),
       fits_int flags = true ->
       dn_shape o = true ->
       overflows o = true ->
       (forall result, fst (run (l_ldap_dn2str L [o; PyLong flags])) <> inl result)
       /\ (forall msg, fst (run (l_ldap_dn2str L [o; PyLong flags]))
                       <> inr (PyExc_TypeError msg))
       /\ fst (run (l_ldap_dn2str L [o; PyLong flags])) <> inr PyExc_OverflowError
       /\ (hazard (marshalled L o) = None ->
           walk (memory L) 0 (dn_of_py o) = None ->
           fst (ldap_dn2bv L (dn_of_py o) flags) = LDAP_SUCCESS L ->
           fst (run (l_ldap_dn2str L [o; PyLong flags])) = inr PyExc_SystemError).
Proof.
  split; [| split; [| split]].
  - intros z Hz. unfold stored_flags, PyLong_AsLong. rewrite Hz. simpl fst.
    split; [apply to_uint32_of_int32 | reflexivity].
  - intros z Hz. unfold stored_flags, PyLong_AsLong. rewrite Hz.
    split; reflexivity.
  - reflexivity.
  - intros o flags Hflags Hshape Hover. unfold run.
    rewrite (dn2str_accepted L o flags initial_world Hflags Hshape). simpl fst.
    pose proof (marshalled_indicator L o Hshape) as Hind. rewrite Hover in Hind.
    split; [| split; [| split]].
    + intros result H. apply dn2str_bv_returns in H.
      destruct H as (_ & _ & Hnone & _). rewrite Hnone in Hind. discriminate Hind.
    + intros msg. apply dn2str_bv_no_type_error.
    + unfold dn2str_bv. destruct (hazard (marshalled L o)); [discriminate |].
      destruct (walk (memory L) 0 (dn_of_py o)); [discriminate |].
      destruct (ldap_dn2bv L (dn_of_py o) flags) as [res str].
      destruct (negb (res =? LDAP_SUCCESS L)); [discriminate |].
      destruct (indicator (marshalled L o)); discriminate.
    + intros Hh Hw Hres. unfold dn2str_bv. rewrite Hh, Hw, Hind.
      destruct (ldap_dn2bv L (dn_of_py o) flags) as [res str]. simpl in Hres.
      rewrite Hres, Z.eqb_refl. reflexivity.
Qed.

(** One AVA whose flags are 2^63, where the memory forgives. *)
Lemma dn2str_ava_flags_unchecked_witness :
  fst (run (l_ldap_dn2str Engine.lenient
              [PyList [PyList [PyTuple [PyUnicode "cn"; PyUnicode "x"; PyLong (2 ^ 63)]]];
               PyLong 0]))
  = inr PyExc_SystemError.
Proof.
  apply (proj2 (proj2 (proj2 (dn2str_ava_flags_unchecked Engine.lenient)))
           (PyList [PyList [PyTuple [PyUnicode "cn"; PyUnicode "x"; PyLong (2 ^ 63)]]]) 0);
    reflexivity.
Defined.

(** X6.  [l_ldap_dn2str] stops at the first element of the outer value that
    is not a list or tuple of triples: what follows it is neither drawn
    nor looked at.  Two calls that differ only in what follows hold the
    same blocks and have drawn as many elements, neither returns a
    string, and where one of them ends with an exception the other ends
    with the same. *)
Theorem dn2str_stops_at_offender (L : Libldap) (good : list PyObject) (bad : PyObject)
        (rest rest' : list PyObject) (flags : Z) :
  fits_int flags = true ->
  is_rdn bad = false ->
  snd (run (l_ldap_dn2str L [PyList (good ++ bad :: rest); PyLong flags]))
  = snd (run (l_ldap_dn2str L [PyList (good ++ bad :: rest'); PyLong flags]))
  /\ (forall result,
         fst (run (l_ldap_dn2str L [PyList (good ++ bad :: rest); PyLong flags]))
         <> inl result)
  /\ (taken (snd (run (l_ldap_dn2str L [PyList (good ++ bad :: rest); PyLong flags])))
      <= S (List.length good))%nat
  /\ forall r : PyObject + PyErr,
       (forall h, r <> inr (Undefined h)) ->
       (fst (run (l_ldap_dn2str L [PyList (good ++ bad :: rest); PyLong flags])) = r
        <-> fst (run (l_ldap_dn2str L [PyList (good ++ bad :: rest'); PyLong flags])) = r).
Proof.
  intros Hflags Hbad.
  assert (Hshape : dn_shape (PyList (good ++ bad :: rest)) = false).
  { unfold dn_shape. simpl. rewrite forallb_app. simpl. rewrite Hbad.
    apply andb_false_r. }
  unfold run.
  rewrite (dn2str_stops L good bad rest rest' (PyLong flags) initial_world Hbad).
  split; [reflexivity |].
  rewrite <- (dn2str_stops L good bad rest rest' (PyLong flags) initial_world Hbad).
  destruct (dn2str_rejected L _ flags initial_world Hflags Hshape)
    as (st & w' & Hrun & _ & _ & Hiter).
  rewrite Hrun. simpl fst. simpl snd. split; [discriminate |]. split.
  - cbn [PyObject_GetIter] in Hiter.
    destruct Hiter as (good' & bad' & rest0 & Heq & Hgood' & Hbad' & Htaken).
    rewrite Htaken. cbn [taken initial_world Nat.add].
    destruct (Nat.le_gt_cases (List.length good') (List.length good)) as [Hle | Hgt];
      [lia |].
    exfalso.
    assert (Hnth : nth (List.length good) (good ++ bad :: rest) PyNone = bad)
      by (rewrite app_nth2, Nat.sub_diag by lia; reflexivity).
    rewrite Heq, app_nth1 in Hnth by exact Hgt.
    assert (Hin : In bad good') by (rewrite <- Hnth; apply nth_In; exact Hgt).
    rewrite forallb_forall in Hgood'. rewrite (Hgood' bad Hin) in Hbad.
    discriminate Hbad.
  - intros r _. reflexivity.
Qed.

Lemma dn2str_stops_at_offender_witness :
  taken (snd (run (l_ldap_dn2str Engine.libldap
                     [PyList ([PyList [PyTuple [PyUnicode "a"; PyUnicode "b"; PyLong 1]]]
                              ++ PyLong 5 :: [PyList []; PyNone]); PyLong 0])))
  = 2%nat
  /\ snd (run (l_ldap_dn2str Engine.libldap
                 [PyList ([PyList [PyTuple [PyUnicode "a"; PyUnicode "b"; PyLong 1]]]
                          ++ PyLong 5 :: [PyList []; PyNone]); PyLong 0]))
     = snd (run (l_ldap_dn2str Engine.libldap
                   [PyList ([PyList [PyTuple [PyUnicode "a"; PyUnicode "b"; PyLong 1]]]
                            ++ PyLong 5 :: []); PyLong 0])).
Proof.
  split; [reflexivity |].
  apply (proj1 (dn2str_stops_at_offender Engine.libldap
                  [PyList [PyTuple [PyUnicode "a"; PyUnicode "b"; PyLong 1]]] (PyLong 5)
                  [PyList []; PyNone] [] 0 eq_refl eq_refl)).
Defined.

(** The string read from a C string holds no NUL. *)
Lemma c_string_has_no_nul (s : string) : has_nul (PyUnicode_FromString s) = false.
Proof.
  unfold has_nul. induction s as [| c s IH]; simpl; [reflexivity |].
  destruct (Ascii.eqb c zero) eqn:Hc; simpl; [reflexivity |].
  rewrite Hc. exact IH.
Qed.

(** X7.  Whatever [l_ldap_dn2str] returns is a [str] without NUL: the
    buffer of the engine is read as a C string, not by its length, so the
    text ends before the first NUL the engine wrote. *)
Theorem dn2str_returns_c_string (L : Libldap) (args : list PyObject)
        (result : PyObject) (w : World) :
  run (l_ldap_dn2str L args) = (inl result, w) ->
  exists s, result = PyUnicode s /\ has_nul s = false.
Proof.
  unfold run. intros Hrun.
  destruct (parse_args_dn2str args) as [[o flags] | e] eqn:Hargs.
  - apply parse_args_dn2str_inv in Hargs. destruct Hargs as [-> Hflags].
    destruct (dn_shape o) eqn:Hshape.
    + rewrite (dn2str_accepted L o flags initial_world Hflags Hshape) in Hrun.
      injection Hrun as Hrun _.
      destruct (dn2str_bv_returns L _ _ _ _ Hrun) as (_ & _ & _ & Hser).
      rewrite Hser in Hrun. unfold serialised in Hrun.
      destruct (ldap_dn2bv L (dn_of_py o) flags) as [res str].
      destruct (res =? LDAP_SUCCESS L); [| discriminate Hrun].
      injection Hrun as <-. eexists. split; [reflexivity | apply c_string_has_no_nul].
    + destruct (dn2str_rejected L o flags initial_world Hflags Hshape)
        as (st & w' & Hrej & _).
      rewrite Hrej in Hrun. discriminate Hrun.
  - unfold l_ldap_dn2str, bind, malloc, lift in Hrun. rewrite Hargs in Hrun.
    discriminate Hrun.
Qed.

(** The text of the sample DN, returned by the call where the memory
    forgives. *)
Lemma dn2str_returns_c_string_witness :
  exists s, PyUnicode (PyUnicode_FromString Engine.sample_text) = PyUnicode s
            /\ has_nul s = false.
Proof.
  apply (dn2str_returns_c_string Engine.lenient
           [py_of_dn Engine.sample_dn; PyLong 0]
           (PyUnicode (PyUnicode_FromString Engine.sample_text))
           (snd (run (l_ldap_dn2str Engine.lenient [py_of_dn Engine.sample_dn; PyLong 0])))).
  vm_compute. reflexivity.
Defined.

Lemma blocks_from_count (dn : LDAPDN) (i : nat) :
  List.length (blocks_from i dn) = (List.length dn + List.length (List.concat dn))%nat.
Proof.
  revert i. induction dn as [| rdn dn IH]; intros i; simpl; [reflexivity |].
  rewrite !length_app, length_map, length_seq, IH. lia.
Qed.

(** X8.  A call of [l_ldap_dn2str] on a value of the accepted shape ends,
    whether the engine succeeds or fails, holding one block for [dn], one
    for each RDN and one for each AVA, in the order they were obtained,
    and having released none. *)
Theorem dn2str_holds_every_block (L : Libldap) (o : PyObject) (flags : Z) :
  fits_int flags = true ->
  dn_shape o = true ->
  live (snd (run (l_ldap_dn2str L [o; PyLong flags])))
  = DnArray :: blocks_from 0 (dn_of_py o)
  /\ List.length (live (snd (run (l_ldap_dn2str L [o; PyLong flags]))))
     = (1 + List.length (dn_of_py o) + List.length (List.concat (dn_of_py o)))%nat
  /\ released (snd (run (l_ldap_dn2str L [o; PyLong flags]))) = [].
Proof.
  intros Hflags Hshape. unfold run.
  rewrite (dn2str_accepted L o flags initial_world Hflags Hshape). simpl.
  rewrite blocks_from_count. repeat split.
Qed.

Lemma dn2str_holds_every_block_witness :
  live (snd (run (l_ldap_dn2str Engine.libldap [py_of_dn Engine.sample_dn; PyLong 0])))
  = DnArray :: blocks_from 0 (dn_of_py (py_of_dn Engine.sample_dn))
  /\ List.length
       (live (snd (run (l_ldap_dn2str Engine.libldap
                          [py_of_dn Engine.sample_dn; PyLong 0]))))
     = (1 + List.length (dn_of_py (py_of_dn Engine.sample_dn))
        + List.length (List.concat (dn_of_py (py_of_dn Engine.sample_dn))))%nat
  /\ released (snd (run (l_ldap_dn2str Engine.libldap
                           [py_of_dn Engine.sample_dn; PyLong 0]))) = [].
Proof.
  apply (dn2str_holds_every_block Engine.libldap (py_of_dn Engine.sample_dn) 0);
    reflexivity.
Defined.

(** ** More of [l_ldap_str2dn] *)

Lemma to_int32_fits (x : Z) : fits_int (to_int32 x) = true.
Proof.
  unfold fits_int, INT_MIN, INT_MAX, to_int32. cbv zeta.
  pose proof (Z.mod_pos_bound x (2 ^ 32) ltac:(lia)) as Hr.
  apply andb_true_iff.
  destruct (Z.ltb_spec (x mod 2 ^ 32) (2 ^ 31)); split; apply Z.leb_le; lia.
Qed.

(** X9.  The flags of every triple [l_ldap_str2dn] returns fit a C [int],
    and each of their 32 low bits is the bit of the engine's flag word,
    except that the bits of [LDAP_AVA_FREE_ATTR] and [LDAP_AVA_FREE_VALUE]
    are clear: every other bit the engine set is handed on unchanged. *)
Theorem str2dn_keeps_public_bits (L : Libldap) (args : list PyObject) (str : berval)
        (flags : Z) (dn : LDAPDN) :
  parse_args_str2dn args = inl (str, flags) ->
  ldap_bv2dn L str flags = (LDAP_SUCCESS L, dn) ->
  exists word : LDAPAVA -> Z,
    fst (run (l_ldap_str2dn L args))
    = inl (PyList
             (map (fun rdn =>
                     PyList
                       (map (fun ava =>
                               PyTuple [LDAPberval_to_unicode_object (la_attr ava);
                                        LDAPberval_to_unicode_object (la_value ava);
                                        PyLong (word ava)]) rdn)) dn))
    /\ forall ava,
         fits_int (word ava) = true
         /\ forall i, 0 <= i < 32 ->
              Z.testbit (word ava) i
              = Z.testbit (la_flags ava) i && negb (Z.testbit (owner_bits L) i).
Proof.
  intros Hargs Hdn.
  exists (fun ava => to_int32 (Z.land (la_flags ava) (u32_not (owner_bits L)))).
  split.
  - unfold run.
    rewrite (str2dn_accepted L args str flags dn initial_world Hargs Hdn). reflexivity.
  - intros ava. split; [apply to_int32_fits |].
    intros i Hi.
    rewrite to_int32_testbit, Z.land_spec, u32_not_testbit_low by exact Hi.
    reflexivity.
Qed.

Lemma str2dn_keeps_public_bits_witness :
  exists word : LDAPAVA -> Z,
    fst (run (l_ldap_str2dn Engine.libldap [PyUnicode Engine.sample_text]))
    = inl (PyList
             (map (fun rdn =>
                     PyList
                       (map (fun ava =>
                               PyTuple [LDAPberval_to_unicode_object (la_attr ava);
                                        LDAPberval_to_unicode_object (la_value ava);
                                        PyLong (word ava)]) rdn))
                  Engine.sample_parsed))
    /\ forall ava,
         fits_int (word ava) = true
         /\ forall i, 0 <= i < 32 ->
              Z.testbit (word ava) i
              = Z.testbit (la_flags ava) i
                && negb (Z.testbit (owner_bits Engine.libldap) i).
Proof.
  apply (str2dn_keeps_public_bits Engine.libldap [PyUnicode Engine.sample_text]
           (buffer_of Engine.sample_text) 0 Engine.sample_parsed).
  - reflexivity.
  - vm_compute. reflexivity.
Defined.

Lemma masked_word_unsigned (la m : Z) :
  to_uint32 (Z.land la (u32_not m)) = Z.land la (u32_not m).
Proof.
  apply Z.bits_inj'. intros i Hi. unfold to_uint32.
  destruct (Z.ltb_spec i 32) as [Hlow | Hhigh].
  - apply Z.mod_pow2_bits_low. lia.
  - rewrite Z.mod_pow2_bits_high by lia.
    rewrite Z.land_spec, u32_not_testbit_high by lia.
    symmetry. apply andb_false_r.
Qed.

Lemma fits_int_long (z : Z) : fits_int z = true -> fits_long z = true.
Proof.
  unfold fits_int, fits_long, INT_MIN, INT_MAX, LONG_MIN, LONG_MAX. intros H.
  apply andb_true_iff in H. destruct H as [Hlo Hhi].
  apply Z.leb_le in Hlo. apply Z.leb_le in Hhi.
  apply andb_true_iff. split; apply Z.leb_le; lia.
Qed.

(** The record made of the tuple made of a record of the engine. *)
Lemma ava_tuple_remade (L : Libldap) (ava : LDAPAVA) :
  is_triple (ava_tuple L ava) = has_buffers ava
  /\ (has_buffers ava = true -> ava_of_py (ava_tuple L ava) = remade L ava).
Proof.
  unfold ava_tuple, has_buffers, remade, recopied, LDAPberval_to_unicode_object.
  destruct (bv_val (la_attr ava)) as [sa |]; [| split; [reflexivity | discriminate]].
  destruct (bv_val (la_value ava)) as [sv |]; [| split; [reflexivity | discriminate]].
  split; [reflexivity |]. intros _.
  unfold ava_of_py, dn2str_ava. simpl. f_equal.
  unfold PyLong_AsLong. rewrite (fits_int_long _ (to_int32_fits _)). simpl fst.
  rewrite !to_uint32_of_int32. fold (owner_bits L). apply masked_word_unsigned.
Qed.

Lemma rdn_tuples_remade (L : Libldap) (rdn : LDAPRDN) :
  forallb is_triple (map (ava_tuple L) rdn) = forallb has_buffers rdn
  /\ (forallb has_buffers rdn = true ->
      map ava_of_py (map (ava_tuple L) rdn) = map (remade L) rdn).
Proof.
  induction rdn as [| ava rdn [IHshape IHrec]]; cbn [map forallb];
    [split; reflexivity |].
  destruct (ava_tuple_remade L ava) as [Hshape Hrec].
  rewrite Hshape, IHshape. split; [reflexivity |].
  intros H. apply andb_true_iff in H. destruct H as [Hava Hrdn].
  rewrite (Hrec Hava), (IHrec Hrdn). reflexivity.
Qed.

Lemma dn_tuples_remade (L : Libldap) (dn : LDAPDN) :
  let result := PyList (map (fun rdn => PyList (map (ava_tuple L) rdn)) dn) in
  dn_shape result = forallb (forallb has_buffers) dn
  /\ (forallb (forallb has_buffers) dn = true ->
      dn_of_py result = map (map (remade L)) dn).
Proof.
  cbv zeta. unfold dn_shape, dn_of_py. cbn [PyObject_GetIter yielded].
  induction dn as [| rdn dn [IHshape IHrec]]; cbn [map forallb is_rdn];
    [split; reflexivity |].
  destruct (rdn_tuples_remade L rdn) as [Hshape Hrec].
  rewrite Hshape, IHshape. split; [reflexivity |].
  intros H. apply andb_true_iff in H. destruct H as [Hrdn Hdn].
  unfold rdn_of_py at 1. cbn [PyObject_GetIter yielded].
  rewrite (Hrec Hrdn), (IHrec Hdn). reflexivity.
Qed.

(** The flags [l_ldap_str2dn] returns are within a C [long]. *)
Lemma dn_tuples_within_long (L : Libldap) (dn : LDAPDN) :
  overflows (PyList (map (fun rdn => PyList (map (ava_tuple L) rdn)) dn)) = false.
Proof.
  unfold overflows. cbn [PyObject_GetIter yielded].
  induction dn as [| rdn dn IH]; cbn [map existsb]; [reflexivity |].
  rewrite IH, orb_false_r. cbn [PyObject_GetIter yielded].
  induction rdn as [| ava rdn IHrdn]; cbn [map existsb]; [reflexivity |].
  rewrite IHrdn, orb_false_r.
  unfold flags_overflow, ava_tuple. cbn [PyList_AsTuple PyTuple_GetItem nth].
  rewrite (fits_int_long _ (to_int32_fits _)). reflexivity.
Qed.

(** X10.  What [l_ldap_str2dn] returns passes the checks of
    [l_ldap_dn2str] exactly when no buffer of the engine's DN was null.
    The records [l_ldap_dn2str] then stores are the engine's own, RDN by
    RDN and AVA by AVA: the octets within the lengths, and the flag words
    without the two ownership bits; no exception is left set, and the
    call goes on to [ldap_dn2bv] with them.  A null buffer comes back as
    [None], for which the call sets the [TypeError] and leaves for
    [failed:]. *)
Theorem dn2str_of_str2dn (L : Libldap) (args : list PyObject) (str : berval)
        (flags f : Z) (dn : LDAPDN) :
  parse_args_str2dn args = inl (str, flags) ->
  ldap_bv2dn L str flags = (LDAP_SUCCESS L, dn) ->
  fits_int f = true ->
  exists result,
    fst (run (l_ldap_str2dn L args)) = inl result
    /\ (forallb (forallb has_buffers) dn = true ->
        fst (run (l_ldap_dn2str L [result; PyLong f]))
        = dn2str_bv L (map (map (remade L)) dn) f (marshalled L result)
        /\ indicator (marshalled L result) = None)
    /\ (forallb (forallb has_buffers) dn = false ->
        fst (run (l_ldap_dn2str L [result; PyLong f]))
        = inr (PyExc_TypeError type_error_message)
        \/ exists h, fst (run (l_ldap_dn2str L [result; PyLong f])) = inr (Undefined h)).
Proof.
  intros Hargs Hdn Hf. eexists. split; [| split].
  - unfold run. rewrite (str2dn_accepted L args str flags dn initial_world Hargs Hdn).
    reflexivity.
  - intros Hbuf. destruct (dn_tuples_remade L dn) as [Hshape Hrec].
    rewrite Hbuf in Hshape. unfold run.
    rewrite (dn2str_accepted L _ f initial_world Hf Hshape).
    simpl fst. rewrite (Hrec Hbuf). split; [reflexivity |].
    rewrite (marshalled_indicator L _ Hshape), dn_tuples_within_long. reflexivity.
  - intros Hbuf. destruct (dn_tuples_remade L dn) as [Hshape _].
    rewrite Hbuf in Hshape. unfold run.
    destruct (dn2str_rejected L _ f initial_world Hf Hshape) as (st & w' & -> & _).
    simpl fst.
    destruct (failed_cases L st (PyExc_TypeError type_error_message)) as [-> | [h ->]];
      [left; reflexivity | right; exists h; reflexivity].
Qed.

Lemma dn2str_of_str2dn_witness :
  exists result,
    fst (run (l_ldap_str2dn Engine.lenient [PyUnicode Engine.sample_text])) = inl result
    /\ (forallb (forallb has_buffers) Engine.sample_parsed = true ->
        fst (run (l_ldap_dn2str Engine.lenient [result; PyLong 0]))
        = dn2str_bv Engine.lenient
            (map (map (remade Engine.lenient)) Engine.sample_parsed) 0
            (marshalled Engine.lenient result)
        /\ indicator (marshalled Engine.lenient result) = None)
    /\ (forallb (forallb has_buffers) Engine.sample_parsed = false ->
        fst (run (l_ldap_dn2str Engine.lenient [result; PyLong 0]))
        = inr (PyExc_TypeError type_error_message)
        \/ exists h,
            fst (run (l_ldap_dn2str Engine.lenient [result; PyLong 0]))
            = inr (Undefined h)).
Proof.
  apply (dn2str_of_str2dn Engine.lenient [PyUnicode Engine.sample_text]
           (buffer_of Engine.sample_text) 0 0 Engine.sample_parsed).
  - reflexivity.
  - vm_compute. reflexivity.
  - reflexivity.
Defined.

(** ** Opening a connection *)

Section OpeningFacts.

Variable L : Libldap.
Variable Net : Sessions.

Lemma scheme_proto_values (scheme : string) (proto : Z) :
  scheme_proto Net scheme = Some proto ->
  proto = LDAP_PROTO_TCP Net
  \/ proto = LDAP_PROTO_IPC Net
  \/ (LDAP_CONNECTIONLESS Net = true /\ proto = LDAP_PROTO_UDP Net).
Proof.
  unfold scheme_proto.
  destruct (String.eqb scheme "ldap"); [intros [= <-]; auto |].
  destruct (String.eqb scheme "ldaps"); [intros [= <-]; auto |].
  destruct (String.eqb scheme "ldapi"); [intros [= <-]; auto |].
  destruct (LDAP_CONNECTIONLESS Net); simpl; [| discriminate].
  destruct (String.eqb scheme "cldap"); [intros [= <-]; auto | discriminate].
Qed.

Lemma scheme_proto_schemes (scheme : string) :
  scheme_proto Net scheme = None
  <-> scheme <> "ldap" /\ scheme <> "ldaps" /\ scheme <> "ldapi"
      /\ (LDAP_CONNECTIONLESS Net = true -> scheme <> "cldap").
Proof.
  unfold scheme_proto.
  destruct (String.eqb_spec scheme "ldap") as [-> | H1].
  { split; [discriminate | intros (H & _); contradiction]. }
  destruct (String.eqb_spec scheme "ldaps") as [-> | H2].
  { split; [discriminate | intros (_ & H & _); contradiction]. }
  destruct (String.eqb_spec scheme "ldapi") as [-> | H3].
  { split; [discriminate | intros (_ & _ & H & _); contradiction]. }
  destruct (LDAP_CONNECTIONLESS Net); simpl.
  - destruct (String.eqb_spec scheme "cldap") as [-> | H4].
    + split; [discriminate | intros (_ & _ & _ & H); exfalso; exact (H eq_refl eq_refl)].
    + split; [intros _; repeat split; auto | reflexivity].
  - split; [intros _; repeat split; auto; discriminate | reflexivity].
Qed.

End OpeningFacts.

(** X11.  [l_ldap_initialize_fd] calls [ldap_init_fd] at most once, and
    only after [ldap_url_parse] accepted the caller's URL and the scheme it
    found is [ldap], [ldaps], [ldapi] or, where [LDAP_CONNECTIONLESS] is
    defined, [cldap]: with the caller's descriptor and URL, and with
    [LDAP_PROTO_TCP], [LDAP_PROTO_IPC] or [LDAP_PROTO_UDP], never with the
    -1 that [proto] starts from.  For any other scheme the call ends with
    the [ValueError] and [ldap_init_fd] is not called. *)
Theorem initialize_fd_scheme_gate (L : Libldap) (Net : Sessions) (args : list PyObject) :
  (forall fd proto url,
      In (Call_ldap_init_fd fd proto url) (snd (l_ldap_initialize_fd L Net args)) ->
      args = [PyLong fd; PyUnicode url]
      /\ fst (ldap_url_parse Net url) = LDAP_SUCCESS L
      /\ scheme_proto Net (lud_scheme (snd (ldap_url_parse Net url))) = Some proto
      /\ (proto = LDAP_PROTO_TCP Net
          \/ proto = LDAP_PROTO_IPC Net
          \/ (LDAP_CONNECTIONLESS Net = true /\ proto = LDAP_PROTO_UDP Net)))
  /\ (List.length (filter is_init_fd (snd (l_ldap_initialize_fd L Net args))) <= 1)%nat
  /\ (forall fd url,
        parse_args_initialize_fd args = inl (fd, url) ->
        fst (ldap_url_parse Net url) = LDAP_SUCCESS L ->
        scheme_proto Net (lud_scheme (snd (ldap_url_parse Net url))) = None ->
        fst (l_ldap_initialize_fd L Net args)
        = inr (PyExc_ValueError "unsupported URL scheme")
        /\ filter is_init_fd (snd (l_ldap_initialize_fd L Net args)) = [])
  /\ (forall scheme,
        scheme_proto Net scheme = None
        <-> scheme <> "ldap" /\ scheme <> "ldaps" /\ scheme <> "ldapi"
            /\ (LDAP_CONNECTIONLESS Net = true -> scheme <> "cldap")).
Proof.
  assert (Hschemes := scheme_proto_schemes Net).
  cut ((forall fd proto url,
      In (Call_ldap_init_fd fd proto url) (snd (l_ldap_initialize_fd L Net args)) ->
      args = [PyLong fd; PyUnicode url]
      /\ fst (ldap_url_parse Net url) = LDAP_SUCCESS L
      /\ scheme_proto Net (lud_scheme (snd (ldap_url_parse Net url))) = Some proto
      /\ (proto = LDAP_PROTO_TCP Net
          \/ proto = LDAP_PROTO_IPC Net
          \/ (LDAP_CONNECTIONLESS Net = true /\ proto = LDAP_PROTO_UDP Net)))
  /\ (List.length (filter is_init_fd (snd (l_ldap_initialize_fd L Net args))) <= 1)%nat
  /\ (forall fd url,
        parse_args_initialize_fd args = inl (fd, url) ->
        fst (ldap_url_parse Net url) = LDAP_SUCCESS L ->
        scheme_proto Net (lud_scheme (snd (ldap_url_parse Net url))) = None ->
        fst (l_ldap_initialize_fd L Net args)
        = inr (PyExc_ValueError "unsupported URL scheme")
        /\ filter is_init_fd (snd (l_ldap_initialize_fd L Net args)) = [])).
  { intros (H1 & H2 & H3). split; [exact H1 |]. split; [exact H2 |].
    split; [exact H3 | exact Hschemes]. }
  clear Hschemes.
  unfold l_ldap_initialize_fd.
  destruct (parse_args_initialize_fd args) as [[fd url] | e] eqn:Hargs.
  - assert (Hinv : args = [PyLong fd; PyUnicode url]).
    { unfold parse_args_initialize_fd, arg_int, arg_string in Hargs.
      destruct args as [| a [| b [| c rest]]]; try discriminate.
      destruct a; try discriminate. destruct (fits_int z); [| discriminate].
      destruct b; try discriminate. destruct (has_nul s); [discriminate |].
      injection Hargs as -> ->. reflexivity. }
    destruct (ldap_url_parse Net url) as [ret lud] eqn:Hparse. simpl fst. simpl snd.
    destruct (ret =? LDAP_SUCCESS L) eqn:Hret; simpl negb; cbv iota.
    + apply Z.eqb_eq in Hret.
      destruct (scheme_proto Net (lud_scheme lud)) as [proto |] eqn:Hscheme.
      * destruct (ldap_init_fd Net fd proto url) as [ret' ld].
        assert (Htrace : forall r : Opened + OpenErr,
                   snd (r, [Call_ldap_url_parse url ret; Call_ldap_free_urldesc;
                            PyEval_SaveThread; Call_ldap_init_fd fd proto url;
                            PyEval_RestoreThread])
                   = [Call_ldap_url_parse url ret; Call_ldap_free_urldesc;
                      PyEval_SaveThread; Call_ldap_init_fd fd proto url;
                      PyEval_RestoreThread]) by reflexivity.
        split; [| split].
        -- intros fd' proto' url' Hin.
           assert (Hev : Call_ldap_init_fd fd' proto' url' = Call_ldap_init_fd fd proto url).
           { destruct (negb (ret' =? LDAP_SUCCESS L)); simpl in Hin;
               destruct Hin as [H | [H | [H | [H | [H | []]]]]];
               try discriminate H; symmetry; exact H. }
           injection Hev as -> -> ->. rewrite Hparse. simpl.
           repeat split; try assumption.
           exact (scheme_proto_values Net _ _ Hscheme).
        -- destruct (negb (ret' =? LDAP_SUCCESS L)); simpl; lia.
        -- intros fd' url' [= <- <-]. rewrite Hparse. simpl. intros _ H.
           rewrite Hscheme in H. discriminate H.
      * split; [| split].
        -- intros fd' proto' url' Hin. simpl in Hin.
           destruct Hin as [H | [H | []]]; discriminate H.
        -- simpl. lia.
        -- intros fd' url' _ _ _. split; reflexivity.
    + split; [| split].
      * intros fd' proto' url' Hin. simpl in Hin. destruct Hin as [H | []]. discriminate H.
      * simpl. lia.
      * intros fd' url' [= <- <-]. rewrite Hparse. simpl. intros H.
        apply Z.eqb_neq in Hret. contradiction.
  - split; [| split].
    + intros fd proto url [].
    + simpl. lia.
    + intros fd url H. discriminate H.
Qed.

(** X12.  [l_ldap_initialize_fd] releases the URL descriptor exactly once
    on every exit on which [ldap_url_parse] made one, before it calls
    [ldap_init_fd], and releases nothing where none was made: no exit
    leaves a descriptor. *)
Theorem initialize_fd_frees_descriptor (L : Libldap) (Net : Sessions)
        (args : list PyObject) :
  descriptors_left (LDAP_SUCCESS L) 0 (snd (l_ldap_initialize_fd L Net args)) = Some 0%nat
  /\ forall before fd proto url after,
       snd (l_ldap_initialize_fd L Net args)
       = before ++ Call_ldap_init_fd fd proto url :: after ->
       descriptors_left (LDAP_SUCCESS L) 0 before = Some 0%nat
       /\ In Call_ldap_free_urldesc before.
Proof.
  unfold l_ldap_initialize_fd.
  destruct (parse_args_initialize_fd args) as [[fd url] | e].
  - destruct (ldap_url_parse Net url) as [ret lud].
    destruct (ret =? LDAP_SUCCESS L) eqn:Hret; simpl negb; cbv iota.
    + destruct (scheme_proto Net (lud_scheme lud)) as [proto |].
      * destruct (ldap_init_fd Net fd proto url) as [ret' ld].
        assert (Htrace : snd (if negb (ret' =? LDAP_SUCCESS L)
                              then (inr (LDAPerror ld) : Opened + OpenErr,
                                    [Call_ldap_url_parse url ret; Call_ldap_free_urldesc;
                                     PyEval_SaveThread; Call_ldap_init_fd fd proto url;
                                     PyEval_RestoreThread])
                              else (inl (newLDAPObject ld),
                                    [Call_ldap_url_parse url ret; Call_ldap_free_urldesc;
                                     PyEval_SaveThread; Call_ldap_init_fd fd proto url;
                                     PyEval_RestoreThread]))
                         = [Call_ldap_url_parse url ret; Call_ldap_free_urldesc]
                             ++ [PyEval_SaveThread]
                             ++ Call_ldap_init_fd fd proto url :: [PyEval_RestoreThread])
          by (destruct (negb (ret' =? LDAP_SUCCESS L)); reflexivity).
        cbv zeta. rewrite Htrace. split.
        -- simpl. rewrite Hret. reflexivity.
        -- intros before fd' proto' url' after Heq.
           destruct before as [| e1 [| e2 [| e3 [| e4 before]]]]; simpl in Heq;
             try (injection Heq as H _; discriminate H);
             try (injection Heq as _ H _; discriminate H);
             try (injection Heq as _ _ H _; discriminate H).
           ++ injection Heq as <- <- <- _. simpl. rewrite Hret. split; auto.
           ++ injection Heq as _ _ _ _ Hrest.
              destruct before as [| e5 before]; [discriminate Hrest |].
              injection Hrest as _ Hrest.
              destruct before; discriminate Hrest.
      * split; [simpl; rewrite Hret; reflexivity |].
        intros before fd' proto' url' after Heq. simpl in Heq.
        destruct before as [| e1 [| e2 [| e3 before]]]; simpl in Heq;
          try (injection Heq as H _; discriminate H);
          try (injection Heq as _ H _; discriminate H);
          try (injection Heq as _ _ H; discriminate H).
    + split; [simpl; rewrite Hret; reflexivity |].
      intros before fd' proto' url' after Heq. simpl in Heq.
      destruct before as [| e1 [| e2 before]]; simpl in Heq;
        try (injection Heq as H _; discriminate H);
        try (injection Heq as _ H; discriminate H).
  - split; [reflexivity |].
    intros before fd' proto' url' after Heq. simpl in Heq.
    destruct before; discriminate Heq.
Qed.
(** X13.  Both functions give up the interpreter lock for the one library
    call that opens the connection and for nothing else, and take it back
    on every exit: [ldap_initialize] and [ldap_init_fd], and they alone,
    run with the thread state saved; [ldap_url_parse] and
    [ldap_free_urldesc], and they alone, run with it held; and no call
    returns with the thread state saved or restores one it did not
    save. *)
Theorem thread_state_bracketed (L : Libldap) (Net : Sessions) (args : list PyObject) :
  thread_saved false (snd (l_ldap_initialize L Net args)) = Some false
  /\ calls_while_held false (snd (l_ldap_initialize L Net args)) = []
  /\ calls_while_saved false (snd (l_ldap_initialize L Net args))
     = match parse_args_initialize args with
       | inl uri => [Call_ldap_initialize uri]
       | inr _ => []
       end
  /\ thread_saved false (snd (l_ldap_initialize_fd L Net args)) = Some false
  /\ Forall (fun ev => match ev with
                       | Call_ldap_url_parse _ _ | Call_ldap_free_urldesc => True
                       | _ => False
                       end)
       (calls_while_held false (snd (l_ldap_initialize_fd L Net args)))
  /\ Forall (fun ev => match ev with
                       | Call_ldap_init_fd _ _ _ => True
                       | _ => False
                       end)
       (calls_while_saved false (snd (l_ldap_initialize_fd L Net args))).
Proof.
  unfold l_ldap_initialize, l_ldap_initialize_fd.
  split; [| split; [| split; [| split; [| split]]]].
  - destruct (parse_args_initialize args) as [uri | e]; [| reflexivity].
    destruct (ldap_initialize Net uri) as [ret ld].
    destruct (negb (ret =? LDAP_SUCCESS L)); reflexivity.
  - destruct (parse_args_initialize args) as [uri | e]; [| reflexivity].
    destruct (ldap_initialize Net uri) as [ret ld].
    destruct (negb (ret =? LDAP_SUCCESS L)); reflexivity.
  - destruct (parse_args_initialize args) as [uri | e]; [| reflexivity].
    destruct (ldap_initialize Net uri) as [ret ld].
    destruct (negb (ret =? LDAP_SUCCESS L)); reflexivity.
  - destruct (parse_args_initialize_fd args) as [[fd url] | e]; [| reflexivity].
    destruct (ldap_url_parse Net url) as [ret lud].
    destruct (negb (ret =? LDAP_SUCCESS L)); [reflexivity |].
    destruct (scheme_proto Net (lud_scheme lud)) as [proto |]; [| reflexivity].
    destruct (ldap_init_fd Net fd proto url) as [ret' ld].
    destruct (negb (ret' =? LDAP_SUCCESS L)); reflexivity.
  - destruct (parse_args_initialize_fd args) as [[fd url] | e]; [| constructor].
    destruct (ldap_url_parse Net url) as [ret lud].
    destruct (negb (ret =? LDAP_SUCCESS L)); [repeat constructor |].
    destruct (scheme_proto Net (lud_scheme lud)) as [proto |]; [| repeat constructor].
    destruct (ldap_init_fd Net fd proto url) as [ret' ld].
    destruct (negb (ret' =? LDAP_SUCCESS L)); repeat constructor.
  - destruct (parse_args_initialize_fd args) as [[fd url] | e]; [| constructor].
    destruct (ldap_url_parse Net url) as [ret lud].
    destruct (negb (ret =? LDAP_SUCCESS L)); [repeat constructor |].
    destruct (scheme_proto Net (lud_scheme lud)) as [proto |]; [| repeat constructor].
    destruct (ldap_init_fd Net fd proto url) as [ret' ld].
    destruct (negb (ret' =? LDAP_SUCCESS L)); repeat constructor.
Qed.
